(** * DnsClientBase: the Designate REST test client

    A shallow embedding of
    [designate_tempest_plugin/services/dns/json/base.py]: the
    [handle_errors] decorator and the methods of [DnsClientBase]
    ([serialize], [deserialize], [expected_success], [get_uri] and the six
    verb helpers), followed by the properties its specification states.

    Python raises and logs; both are threaded explicitly.  A computation
    takes the log written so far and gives back an outcome, either a raised
    exception or a value, together with the extended log. *)

From Stdlib Require Import ZArith NArith String Ascii List Bool Lia.
From Stdlib Require Import DecimalString DecimalPos DecimalFacts.
From stdpp Require Import base decidable option gmap strings.
Import ListNotations.

Set Warnings "-register-all".

#[local] Open Scope string_scope.
#[local] Open Scope Z_scope.

(* stdpp blocks the unfolding of string concatenation; the proofs about
   URIs compute with it. *)
#[local] Arguments String.append !_ _ /.

(** ** Python values *)

(** The keys of a dictionary: the hashable values among the ones below. *)
Inductive pykey : Type :=
| KNone
| KBool (b : bool)
| KInt (z : Z)
| KStr (s : string).

(** The values the client handles: request payloads, decoded JSON bodies and
    the [status] attribute of a response.  Dictionaries keep their insertion
    order. *)
Inductive pyobj : Type :=
| PNone
| PBool (b : bool)
| PInt (z : Z)
| PStr (s : string)
| PList (l : list pyobj)
| PDict (items : list (pykey * pyobj)).

(** ** Exceptions *)

(** The exception classes the module names or that its callees document,
    and [ExcNamed] for any other class (a transport error, say). *)
Inductive exc_class : Type :=
| InvalidContentType
| InvalidHttpSuccessCode
| KeyError
| ValueError
| TypeError
| ExcNamed (name : string).

#[global] Instance exc_class_eq_dec : EqDecision exc_class.
Proof. solve_decision. Defined.

(** A raised exception: its class and its argument. *)
Record exn : Type := Exn { exn_type : exc_class; exn_arg : string }.

(** ** Logging *)

Inductive level : Type := DEBUG | WARNING.

Definition log : Type := list (level * string).

(** ** Computations *)

Definition M (A : Type) : Type := log -> (exn + A) * log.

Definition ret {A} (a : A) : M A := fun l => (inr a, l).

Definition raise {A} (e : exn) : M A := fun l => (inl e, l).

Definition bind {A B} (m : M A) (k : A -> M B) : M B :=
  fun l =>
    match m l with
    | (inl e, l') => (inl e, l')
    | (inr a, l') => k a l'
    end.

(** A pure callee that either raises or returns. *)
Definition lift {A} (r : exn + A) : M A := fun l => (r, l).

(** [LOG.debug] and [LOG.warn]. *)
Definition LOG (lvl : level) (msg : string) : M unit :=
  fun l => (inr tt, (l ++ [(lvl, msg)])%list).

(** [try: m  except <classes accepted by catches> as e: h e]. *)
Definition try_except {A} (m : M A) (catches : exn -> bool) (h : exn -> M A)
  : M A :=
  fun l =>
    match m l with
    | (inl e, l') => if catches e then h e l' else (inl e, l')
    | (inr a, l') => (inr a, l')
    end.

Declare Scope py_scope.
Delimit Scope py_scope with py.
Notation "x <- c ;; k" := (bind c (fun x => k))
  (at level 100, c at next level, right associativity) : py_scope.
Notation "c ;;; k" := (bind c (fun _ => k))
  (at level 100, right associativity) : py_scope.
#[local] Open Scope py_scope.

(** ** Strings *)

(** Python's [needle in hay] on two strings. *)
Fixpoint contains (needle hay : string) : bool :=
  String.prefix needle hay ||
  match hay with
  | EmptyString => false
  | String _ rest => contains needle rest
  end.

(** ** Responses *)

(** What the transport hands back besides the body text: the [status]
    attribute and the header dictionary read by [resp['content-type']]. *)
Record Resp : Type := { status : pyobj; headers : gmap string string }.

(** [resp[key]]: a missing key raises [KeyError]. *)
Definition getitem (resp : Resp) (key : string) : M string :=
  match headers resp !! key with
  | Some v => ret v
  | None => raise (Exn KeyError key)
  end.

(** ** The libraries the module imports *)

(** [oslo_serialization.jsonutils], [six.moves.urllib.parse], the builtins
    [int], [repr] and [str], and the exception hierarchy: none is defined
    by this module, so each is a field here. *)
Class PyLib : Type := {
  (** [json.dumps] *)
  json_dumps : pyobj -> exn + string;
  (** [json.loads] *)
  json_loads : string -> exn + pyobj;
  (** [urllib.urlencode] *)
  urlencode : list (string * string) -> string;
  (** [int(s)] on a string *)
  int_of_str : string -> exn + Z;
  (** [repr] *)
  repr : pyobj -> string;
  (** [str(cls)] of an exception class *)
  str_of_class : exc_class -> string;
  (** the proper ancestors of an exception class *)
  bases : exc_class -> list exc_class
}.

(** [designate_tempest_plugin.common.models.ZoneFile], imported by the
    module: the type of zone files and its [from_text] class method. *)
Class ZoneFileModel : Type := {
  ZoneFile : Type;
  from_text : string -> exn + ZoneFile
}.

(** The inherited transport of [rest_client.RestClient]: one method per
    HTTP verb, each giving the response and the body text, and the
    [uri_prefix] attribute of the client. *)
Class RestClient : Type := {
  uri_prefix : string;
  post : string -> string -> option (gmap string string) -> bool ->
         M (Resp * string);
  get : string -> option (gmap string string) -> M (Resp * string);
  put : string -> string -> M (Resp * string);
  patch : string -> string -> M (Resp * string);
  delete : string -> M (Resp * string)
}.

(** ** Builtins on values *)

(** [isinstance(v, int)]; [bool] is a subclass of [int]. *)
Definition isinstance_int (v : pyobj) : bool :=
  match v with
  | PInt _ | PBool _ => true
  | _ => false
  end.

(** [int(v)]. *)
Definition int_ `{lib : PyLib} (v : pyobj) : exn + Z :=
  match v with
  | PInt z => inr z
  | PBool b => inr (if b then 1 else 0)
  | PStr s => int_of_str s
  | PNone | PList _ | PDict _ =>
      inl (Exn TypeError "int() argument must be a string or a number")
  end.

(** [v == n] for an integer literal [n]. *)
Definition eq_int (v : pyobj) (n : Z) : bool :=
  match v with
  | PInt z => z =? n
  | PBool b => (if b then 1 else 0) =? n
  | _ => false
  end.

(** [issubclass(c, d)]. *)
Definition issubclass `{lib : PyLib} (c d : exc_class) : bool :=
  bool_decide (c = d) || existsb (fun b => bool_decide (b = d)) (bases c).

(** Whether [except classes] accepts the exception [e]. *)
Definition except_matches `{lib : PyLib} (classes : list exc_class) (e : exn)
  : bool :=
  existsb (issubclass (exn_type e)) classes.

(** ** handle_errors *)

(** The keyword arguments of a decorated call: [ignore_errors], when the
    caller passed it (a tuple of classes, or one class, which [except]
    accepts as well), and the others. *)
Record kwargs (K : Type) : Type :=
  { ignore_errors : option (list exc_class); others : K }.
Arguments ignore_errors {K} _.
Arguments others {K} _.

(** The decorator.  The wrapped [f] receives the keyword arguments without
    [ignore_errors]; the wrapper gives [Some r] when [f] returns [r] and
    [None] when it falls off its end after the handler. *)
Definition handle_errors `{lib : PyLib} {A K R : Type} (f : A -> K -> M R)
  : A -> kwargs K -> M (option R) :=
  fun args kw =>
    let ignored_errors := default [] (ignore_errors kw) in
    try_except (r <- f args (others kw) ;; ret (Some r))
      (except_matches ignored_errors)
      (fun e =>
         LOG DEBUG ("Ignoring exception of type "
                    ++ str_of_class (exn_type e) ++ ", as requested") ;;;
         ret None).

(** ** RestClient.expected_success *)

(** The [expected_code] argument: one code or a list of codes. *)
Inductive expected : Type :=
| Code (c : Z)
| Codes (cs : list Z).

(** Whether [read_code] is the expected code, or one of them. *)
Definition code_expected (expected_code : expected) (read_code : Z) : bool :=
  match expected_code with
  | Code c => read_code =? c
  | Codes cs => existsb (Z.eqb read_code) cs
  end.

(** Modelled from the spec: the status validator that [DnsClientBase]
    inherits from [tempest.lib.common.rest_client.RestClient], whose source
    is not part of this module.  Given one expected status code or a set of
    acceptable codes and the integer status received, it fails with the
    wrong-HTTP-status error if the status is not in the expected set. *)
Definition RestClient_expected_success (expected_code : expected)
  (read_code : Z) : M unit :=
  if code_expected expected_code read_code then ret tt
  else raise (Exn InvalidHttpSuccessCode "Unexpected http success status code").

(** ** DnsClientBase *)

(** What [deserialize] returns: decoded JSON or a zone file. *)
Inductive decoded `{zf : ZoneFileModel} : Type :=
| Json (v : pyobj)
| Zone (z : ZoneFile).

Section DnsClientBase.
Context `{lib : PyLib} `{zf : ZoneFileModel} `{client : RestClient}.

Definition serialize (object_dict : pyobj) : M string :=
  lift (json_dumps object_dict).

Definition deserialize (resp : Resp) (object_str : string) : M decoded :=
  ct <- getitem resp "content-type" ;;
  if contains "application/json" ct then
    v <- lift (json_loads object_str) ;; ret (Json v)
  else
    ct <- getitem resp "content-type" ;;
    if contains "text/dns" ct then
      z <- lift (from_text object_str) ;; ret (Zone z)
    else
      raise (Exn InvalidContentType "").

(** The text of the warning. *)
Definition not_int_message (expected_code : expected) (read_code : pyobj)
  : string :=
  let expected_repr :=
    match expected_code with
    | Code c => repr (PInt c)
    | Codes cs => repr (PList (map PInt cs))
    end in
  "expected_success(" ++ expected_repr ++ ", " ++ repr read_code
    ++ ") received not-int read_code " ++ repr read_code.

Definition expected_success (expected_code : expected) (read_code : pyobj)
  : M unit :=
  (if negb (isinstance_int read_code) then
     LOG WARNING (not_int_message expected_code read_code)
   else ret tt) ;;;
  n <- lift (int_ read_code) ;;
  RestClient_expected_success expected_code n.

(** [uuid] and [params] default to [None]; a value is used when it is
    truthy, that is a non-empty string and a non-empty mapping. *)
Definition get_uri (resource_name : string) (uuid : option string)
  (params : option (list (string * string))) : string :=
  let uuid :=
    match uuid with
    | Some ((String _ _) as u) => "/" ++ u
    | _ => ""
    end in
  let params :=
    match params with
    | Some ((_ :: _) as ps) => "?" ++ urlencode ps
    | _ => ""
    end in
  uri_prefix ++ "/" ++ resource_name ++ uuid ++ params.

Definition _create_request (resource : string) (object_dict : pyobj)
  (params : option (list (string * string)))
  (hdrs : option (gmap string string)) (extra_headers : bool)
  : M (Resp * decoded) :=
  body <- serialize object_dict ;;
  let uri := get_uri resource None params in
  r <- post uri body hdrs extra_headers ;;
  let '(resp, body) := r in
  expected_success (Codes [201; 202]) (status resp) ;;;
  d <- deserialize resp body ;;
  ret (resp, d).

Definition _show_request (resource : string) (uuid : option string)
  (hdrs : option (gmap string string))
  (params : option (list (string * string))) : M (Resp * decoded) :=
  let uri := get_uri resource uuid params in
  r <- get uri hdrs ;;
  let '(resp, body) := r in
  expected_success (Code 200) (status resp) ;;;
  d <- deserialize resp body ;;
  ret (resp, d).

Definition _list_request (resource : string)
  (params : option (list (string * string))) : M (Resp * decoded) :=
  let uri := get_uri resource None params in
  r <- get uri None ;;
  let '(resp, body) := r in
  expected_success (Code 200) (status resp) ;;;
  d <- deserialize resp body ;;
  ret (resp, d).

Definition _put_request (resource : string) (uuid : option string)
  (object_dict : pyobj) (params : option (list (string * string)))
  : M (Resp * decoded) :=
  body <- serialize object_dict ;;
  let uri := get_uri resource uuid params in
  r <- put uri body ;;
  let '(resp, body) := r in
  expected_success (Codes [200; 202]) (status resp) ;;;
  d <- deserialize resp body ;;
  ret (resp, d).

Definition _update_request (resource : string) (uuid : option string)
  (object_dict : pyobj) (params : option (list (string * string)))
  : M (Resp * decoded) :=
  body <- serialize object_dict ;;
  let uri := get_uri resource uuid params in
  r <- patch uri body ;;
  let '(resp, body) := r in
  expected_success (Codes [200; 202]) (status resp) ;;;
  d <- deserialize resp body ;;
  ret (resp, d).

(** The second component is the body text as received, or the decoded
    body when the status is 202. *)
Definition _delete_request (resource : string) (uuid : option string)
  (params : option (list (string * string)))
  : M (Resp * (string + decoded)) :=
  let uri := get_uri resource uuid params in
  r <- delete uri ;;
  let '(resp, body) := r in
  expected_success (Codes [202; 204]) (status resp) ;;;
  if eq_int (status resp) 202 then
    d <- deserialize resp body ;;
    ret (resp, inr d)
  else
    ret (resp, inl body).

End DnsClientBase.

(** The outcome of a failed status check: the wrong-HTTP-status error of the
    validator, and the log with the warning of [expected_success] when the
    status was not an [int]. *)
Definition expected_success_failure `{lib : PyLib} {A : Type}
  (expected_code : expected) (read_code : pyobj) (l : log) : (exn + A) * log :=
  (inl (Exn InvalidHttpSuccessCode "Unexpected http success status code"),
   if isinstance_int read_code then l
   else (l ++ [(WARNING, not_int_message expected_code read_code)])%list).

(** ** Calling a helper by its verb *)

(** The six helpers under one signature, so that a property of all of
    them is one statement. *)
Inductive verb : Type := Create | Show | List_ | Replace | Update | Delete.

(** The arguments of a helper; a helper reads the ones in its signature. *)
Record call_args : Type := {
  arg_resource : string;
  arg_uuid : option string;
  arg_object_dict : pyobj;
  arg_params : option (list (string * string));
  arg_headers : option (gmap string string);
  arg_extra_headers : bool
}.

Section Calls.
Context `{lib : PyLib} `{zf : ZoneFileModel} `{client : RestClient}.

Definition decoded_body (r : Resp * decoded) : Resp * (string + decoded) :=
  (fst r, inr (snd r)).

Definition call (v : verb) (a : call_args) : M (Resp * (string + decoded)) :=
  match v with
  | Create =>
      r <- _create_request (arg_resource a) (arg_object_dict a)
             (arg_params a) (arg_headers a) (arg_extra_headers a) ;;
      ret (decoded_body r)
  | Show =>
      r <- _show_request (arg_resource a) (arg_uuid a) (arg_headers a)
             (arg_params a) ;;
      ret (decoded_body r)
  | List_ =>
      r <- _list_request (arg_resource a) (arg_params a) ;;
      ret (decoded_body r)
  | Replace =>
      r <- _put_request (arg_resource a) (arg_uuid a) (arg_object_dict a)
             (arg_params a) ;;
      ret (decoded_body r)
  | Update =>
      r <- _update_request (arg_resource a) (arg_uuid a)
             (arg_object_dict a) (arg_params a) ;;
      ret (decoded_body r)
  | Delete => _delete_request (arg_resource a) (arg_uuid a) (arg_params a)
  end.

(** The helper's one transport call, issued from log [l], came back with
    [resp] and [body], leaving log [l1]. *)
Definition responds (v : verb) (a : call_args) (l : log) (resp : Resp)
  (body : string) (l1 : log) : Prop :=
  match v with
  | Create =>
      exists s, json_dumps (arg_object_dict a) = inr s /\
        post (get_uri (arg_resource a) None (arg_params a)) s
          (arg_headers a) (arg_extra_headers a) l = (inr (resp, body), l1)
  | Show =>
      get (get_uri (arg_resource a) (arg_uuid a) (arg_params a))
        (arg_headers a) l = (inr (resp, body), l1)
  | List_ =>
      get (get_uri (arg_resource a) None (arg_params a)) None l
      = (inr (resp, body), l1)
  | Replace =>
      exists s, json_dumps (arg_object_dict a) = inr s /\
        put (get_uri (arg_resource a) (arg_uuid a) (arg_params a)) s l
        = (inr (resp, body), l1)
  | Update =>
      exists s, json_dumps (arg_object_dict a) = inr s /\
        patch (get_uri (arg_resource a) (arg_uuid a) (arg_params a)) s l
        = (inr (resp, body), l1)
  | Delete =>
      delete (get_uri (arg_resource a) (arg_uuid a) (arg_params a)) l
      = (inr (resp, body), l1)
  end.

(** The status codes the helper passes to [expected_success]. *)
Definition expected_of (v : verb) : expected :=
  match v with
  | Create => Codes [201; 202]
  | Show | List_ => Code 200
  | Replace | Update => Codes [200; 202]
  | Delete => Codes [202; 204]
  end.

End Calls.

(** The expected status codes as the specification lists them:
    Create {201,202}; Show {200}; List {200}; Replace {200,202};
    Update {200,202}; Delete {202,204}. *)
Definition spec_codes (v : verb) : list Z :=
  match v with
  | Create => [201; 202]
  | Show => [200]
  | List_ => [200]
  | Replace => [200; 202]
  | Update => [200; 202]
  | Delete => [202; 204]
  end.

(** [m], run from log [l], raises an exception of class [c]. *)
Definition raises {A} (m : M A) (l : log) (c : exc_class) : Prop :=
  exists e l', m l = (inl e, l') /\ exn_type e = c.

(** ** The decorated create operation *)

(** Modelled from the spec: the caller-facing operations are defined in the
    resource clients, outside this module, each by decorating a method that
    calls a verb helper with [handle_errors]; their signature pattern is
    [operation(resource_name, [uuid], [object_payload], [query_params],
    [headers], [ignore_errors=(...)])].  This is the create operation: the
    decorator around a call of [_create_request]. *)
Definition create_operation `{lib : PyLib} `{zf : ZoneFileModel}
  `{client : RestClient}
  : string * pyobj ->
    kwargs (option (list (string * string)) * option (gmap string string)) ->
    M (option (Resp * decoded)) :=
  handle_errors
    (fun args kw =>
       _create_request (fst args) (snd args) (fst kw) (snd kw) false).

(** ** A reference environment *)

(** Executable stand-ins for the imported libraries, on which the client
    runs on concrete requests and responses: a JSON printer and parser in
    the output format of [json.dumps], [urlencode] with [quote_plus],
    decimal [int], a [repr], and a transport that answers every request
    with one given response. *)
Module Reference.

Definition dquote : ascii := "034"%char.
Definition squote : ascii := "039"%char.
Definition backslash : ascii := "092"%char.

Definition code (c : ascii) : Z := Z.of_N (N_of_ascii c).

Definition chr (n : Z) : ascii := ascii_of_N (Z.to_N n).

Definition str1 (c : ascii) : string := String c EmptyString.

Definition is_ws (c : ascii) : bool :=
  let n := code c in (n =? 32) || (n =? 9) || (n =? 10) || (n =? 13).

Fixpoint skip_ws (s : string) : string :=
  match s with
  | String c r => if is_ws c then skip_ws r else s
  | EmptyString => s
  end.

Fixpoint rev_string (s acc : string) : string :=
  match s with
  | String c r => rev_string r (String c acc)
  | EmptyString => acc
  end.

(** [s.strip()] for the four blanks above. *)
Definition strip (s : string) : string :=
  rev_string (skip_ws (rev_string (skip_ws s) "")) "".

(** [s] without the prefix [p], when it starts with it. *)
Fixpoint strip_prefix (p s : string) : option string :=
  match p, s with
  | EmptyString, _ => Some s
  | String a p', String b s' =>
      if Ascii.eqb a b then strip_prefix p' s' else None
  | String _ _, EmptyString => None
  end.

(** *** Decimal numerals *)

Definition str_of_Z (z : Z) : string := NilZero.string_of_int (Z.to_int z).

Definition digit_of (c : ascii) : option Z :=
  let n := code c in
  if (48 <=? n) && (n <=? 57) then Some (n - 48) else None.

(** The value of the longest run of digits at the head of [s], continuing
    [acc], and what follows the run. *)
Fixpoint digits (s : string) (acc : Z) : Z * string :=
  match s with
  | String c r =>
      match digit_of c with
      | Some d => digits r (10 * acc + d)
      | None => (acc, s)
      end
  | EmptyString => (acc, s)
  end.

(** A non-empty run of digits. *)
Definition natural (s : string) : option (Z * string) :=
  match s with
  | String c _ =>
      match digit_of c with
      | Some _ => Some (digits s 0)
      | None => None
      end
  | EmptyString => None
  end.

(** *** JSON text *)

Definition hex_char (n : Z) : ascii :=
  chr (if n <? 10 then 48 + n else 87 + n).

Definition hex_val (c : ascii) : option Z :=
  let n := code c in
  if (48 <=? n) && (n <=? 57) then Some (n - 48)
  else if (97 <=? n) && (n <=? 102) then Some (n - 87)
  else if (65 <=? n) && (n <=? 70) then Some (n - 55)
  else None.

Definition escape_char (c : ascii) : string :=
  let n := code c in
  if n =? 34 then String backslash (str1 dquote)
  else if n =? 92 then String backslash (str1 backslash)
  else if n =? 10 then String backslash "n"
  else if n =? 13 then String backslash "r"
  else if n =? 9 then String backslash "t"
  else if n =? 8 then String backslash "b"
  else if n =? 12 then String backslash "f"
  else if (n <? 32) || (126 <? n) then
    String backslash
      ("u00" ++ String (hex_char (n / 16)) (str1 (hex_char (n mod 16))))
  else str1 c.

Fixpoint escape (s : string) : string :=
  match s with
  | String c r => escape_char c ++ escape r
  | EmptyString => ""
  end.

Definition quoted (s : string) : string :=
  String dquote (escape s ++ str1 dquote).

(** The key of a member as [json.dumps] writes it: JSON keys are strings,
    and a key that is [None], a boolean or an integer is written as the
    string of its JSON text. *)
Definition key_text (k : pykey) : string :=
  match k with
  | KNone => "null"
  | KBool true => "true"
  | KBool false => "false"
  | KInt z => str_of_Z z
  | KStr s => s
  end.

(** [json.dumps] with its default separators. *)
Fixpoint dumps (v : pyobj) : string :=
  match v with
  | PNone => "null"
  | PBool true => "true"
  | PBool false => "false"
  | PInt z => str_of_Z z
  | PStr s => quoted s
  | PList l =>
      "[" ++
      (fix elems (l : list pyobj) : string :=
         match l with
         | [] => ""
         | x :: r =>
             dumps x ++ match r with [] => "" | _ => ", " ++ elems r end
         end) l ++ "]"
  | PDict items =>
      "{" ++
      (fix members (l : list (pykey * pyobj)) : string :=
         match l with
         | [] => ""
         | (k, x) :: r =>
             quoted (key_text k) ++ ": " ++ dumps x
             ++ match r with [] => "" | _ => ", " ++ members r end
         end) items ++ "}"
  end.

(** The character a two-character escape stands for. *)
Definition simple_escape (e : ascii) : option ascii :=
  if Ascii.eqb e dquote then Some dquote
  else if Ascii.eqb e backslash then Some backslash
  else if Ascii.eqb e "/" then Some "/"%char
  else if Ascii.eqb e "n" then Some (chr 10)
  else if Ascii.eqb e "r" then Some (chr 13)
  else if Ascii.eqb e "t" then Some (chr 9)
  else if Ascii.eqb e "b" then Some (chr 8)
  else if Ascii.eqb e "f" then Some (chr 12)
  else None.

(** The character of the four hexadecimal digits of a [\u] escape; one
    above code point 255 has no character here and is refused. *)
Definition unicode_escape (a b h k : ascii) : option ascii :=
  match hex_val a, hex_val b, hex_val h, hex_val k with
  | Some 0, Some 0, Some x, Some y => Some (chr (16 * x + y))
  | _, _, _, _ => None
  end.

Definition cons_char (c : ascii) (r : option (string * string))
  : option (string * string) :=
  match r with
  | Some (t, rest) => Some (String c t, rest)
  | None => None
  end.

(** The characters of a string literal after its opening quote, up to
    the closing quote, and what follows it. *)
Fixpoint chars (s : string) : option (string * string) :=
  match s with
  | EmptyString => None
  | String c r =>
      if Ascii.eqb c dquote then Some ("", r)
      else if Ascii.eqb c backslash then
        match r with
        | EmptyString => None
        | String e r1 =>
            if Ascii.eqb e "u" then
              match r1 with
              | String a (String b (String h (String k r2))) =>
                  match unicode_escape a b h k with
                  | Some d => cons_char d (chars r2)
                  | None => None
                  end
              | _ => None
              end
            else
              match simple_escape e with
              | Some d => cons_char d (chars r1)
              | None => None
              end
        end
      else if code c <? 32 then None
      else cons_char c (chars r)
  end.

(** An integer literal.  A leading zero before another digit is refused,
    and so is a fraction or an exponent: the value would be a float. *)
Definition number (s : string) : option (Z * string) :=
  let (neg, u) :=
    match s with
    | String "-" r => (true, r)
    | _ => (false, s)
    end in
  match u with
  | String "0" (String c _) =>
      match digit_of c with
      | Some _ => None
      | None =>
          if Ascii.eqb c "." || Ascii.eqb c "e" || Ascii.eqb c "E" then None
          else natural u
      end
  | _ =>
      match natural u with
      | Some (n, String c r) =>
          if Ascii.eqb c "." || Ascii.eqb c "e" || Ascii.eqb c "E" then None
          else Some (if neg : bool then - n else n, String c r)
      | Some (n, EmptyString) => Some (if neg : bool then - n else n, "")
      | None => None
      end
  end.

(** [d[k] = v] on the dictionary the parser builds, whose keys are
    strings. *)
Fixpoint setitem (d : list (string * pyobj)) (k : string) (v : pyobj)
  : list (string * pyobj) :=
  match d with
  | [] => [(k, v)]
  | (k', v') :: r =>
      if String.eqb k' k then (k', v) :: r else (k', v') :: setitem r k v
  end.

(** [s] after the character [c], which must come first after blanks. *)
Definition expect (c : ascii) (s : string) : option string :=
  match skip_ws s with
  | String d r => if Ascii.eqb d c then Some r else None
  | EmptyString => None
  end.

(** [null], [true], [false] or a number. *)
Definition literal (t : string) : option (pyobj * string) :=
  match strip_prefix "null" t, strip_prefix "true" t,
        strip_prefix "false" t with
  | Some rest, _, _ => Some (PNone, rest)
  | _, Some rest, _ => Some (PBool true, rest)
  | _, _, Some rest => Some (PBool false, rest)
  | None, None, None =>
      match number t with
      | Some (z, rest) => Some (PInt z, rest)
      | None => None
      end
  end.

(** The dictionary the parser has built, as a value. *)
Definition str_keys (d : list (string * pyobj)) : list (pykey * pyobj) :=
  map (fun kv => (KStr (fst kv), snd kv)) d.

(** One level of the parser: a value, the elements of a list after its
    opening bracket, the members of a dictionary after its opening brace.
    The parsers of the level below are arguments. *)
Definition value_step (elems : string -> option (list pyobj * string))
  (members : string -> list (string * pyobj) ->
             option (list (string * pyobj) * string))
  (s : string) : option (pyobj * string) :=
  match skip_ws s with
  | EmptyString => None
  | String c r as t =>
      if Ascii.eqb c dquote then
        match chars r with
        | Some (x, rest) => Some (PStr x, rest)
        | None => None
        end
      else if Ascii.eqb c "[" then
        match expect "]" r with
        | Some rest => Some (PList [], rest)
        | None =>
            match elems r with
            | Some (l, rest) => Some (PList l, rest)
            | None => None
            end
        end
      else if Ascii.eqb c "{" then
        match expect "}" r with
        | Some rest => Some (PDict [], rest)
        | None =>
            match members r [] with
            | Some (d, rest) => Some (PDict (str_keys d), rest)
            | None => None
            end
        end
      else literal t
  end.

Definition elems_step (value : string -> option (pyobj * string))
  (elems : string -> option (list pyobj * string)) (s : string)
  : option (list pyobj * string) :=
  match value s with
  | Some (x, rest) =>
      match expect "," rest with
      | Some rest' =>
          match elems rest' with
          | Some (l, rest'') => Some (x :: l, rest'')
          | None => None
          end
      | None =>
          match expect "]" rest with
          | Some rest' => Some ([x], rest')
          | None => None
          end
      end
  | None => None
  end.

Definition members_step (value : string -> option (pyobj * string))
  (members : string -> list (string * pyobj) ->
             option (list (string * pyobj) * string))
  (s : string) (acc : list (string * pyobj))
  : option (list (string * pyobj) * string) :=
  match expect dquote s with
  | Some r =>
      match chars r with
      | Some (k, rest) =>
          match expect ":" rest with
          | Some rest' =>
              match value rest' with
              | Some (x, rest'') =>
                  let acc := setitem acc k x in
                  match expect "," rest'' with
                  | Some r3 => members r3 acc
                  | None =>
                      match expect "}" rest'' with
                      | Some r3 => Some (acc, r3)
                      | None => None
                      end
                  end
              | None => None
              end
          | None => None
          end
      | None => None
      end
  | None => None
  end.

(** A JSON value at the head of [s] and what follows it; [n] bounds the
    number of nested calls. *)
Fixpoint value (n : nat) (s : string) : option (pyobj * string) :=
  match n with
  | O => None
  | S n => value_step (elems n) (members n) s
  end
with elems (n : nat) (s : string) : option (list pyobj * string) :=
  match n with
  | O => None
  | S n => elems_step (value n) (elems n) s
  end
with members (n : nat) (s : string) (acc : list (string * pyobj))
  : option (list (string * pyobj) * string) :=
  match n with
  | O => None
  | S n => members_step (value n) (members n) s acc
  end.

(** [json.loads]. *)
Definition loads (s : string) : exn + pyobj :=
  let bad := inl (Exn ValueError "No JSON object could be decoded") in
  match value (2 * String.length s + 2) s with
  | Some (v, rest) =>
      match skip_ws rest with
      | EmptyString => inr v
      | _ => bad
      end
  | None => bad
  end.








(** *** urlencode *)

Definition is_unreserved (c : ascii) : bool :=
  let n := code c in
  ((48 <=? n) && (n <=? 57)) || ((65 <=? n) && (n <=? 90))
  || ((97 <=? n) && (n <=? 122))
  || (n =? 95) || (n =? 46) || (n =? 45) || (n =? 126).

Definition HEX_char (n : Z) : ascii :=
  chr (if n <? 10 then 48 + n else 55 + n).

Fixpoint quote_plus (s : string) : string :=
  match s with
  | EmptyString => ""
  | String c r =>
      (if is_unreserved c then str1 c
       else if Ascii.eqb c " " then "+"
       else String "%" (String (HEX_char (code c / 16))
                          (str1 (HEX_char (code c mod 16)))))
      ++ quote_plus r
  end.

Fixpoint join (sep : string) (l : list string) : string :=
  match l with
  | [] => ""
  | [x] => x
  | x :: r => x ++ sep ++ join sep r
  end.

Definition ref_urlencode (params : list (string * string)) : string :=
  join "&" (map (fun kv => quote_plus (fst kv) ++ "=" ++ quote_plus (snd kv))
              params).

(** *** repr and str *)

(** A character of a string between the quotes [q]. *)
Definition repr_char (q c : ascii) : string :=
  let n := code c in
  if Ascii.eqb c q || (n =? 92) then String backslash (str1 c)
  else if n =? 10 then String backslash "n"
  else if n =? 13 then String backslash "r"
  else if n =? 9 then String backslash "t"
  else if (n <? 32) || (126 <? n) then
    String backslash
      (String "x" (String (hex_char (n / 16)) (str1 (hex_char (n mod 16)))))
  else str1 c.

Fixpoint repr_chars (q : ascii) (s : string) : string :=
  match s with
  | String c r => repr_char q c ++ repr_chars q r
  | EmptyString => ""
  end.

Fixpoint has_char (c : ascii) (s : string) : bool :=
  match s with
  | String d r => Ascii.eqb c d || has_char c r
  | EmptyString => false
  end.

(** [repr] of a string: between single quotes, or between double quotes
    when the string has a single quote and no double quote. *)
Definition repr_str (s : string) : string :=
  let q :=
    if has_char squote s && negb (has_char dquote s) then dquote
    else squote in
  String q (repr_chars q s ++ str1 q).

(** [s] without the underscores that stand between two digits. *)
Fixpoint ungroup (after_digit : bool) (s : string) : string :=
  match s with
  | String c r =>
      let before_digit :=
        match r with
        | String d _ => bool_decide (digit_of d <> None)
        | EmptyString => false
        end in
      if Ascii.eqb c "_" && after_digit && before_digit then ungroup false r
      else String c (ungroup (bool_decide (digit_of c <> None)) r)
  | EmptyString => ""
  end.

(** [int(s)]: blanks around an optional sign and decimal digits, which
    single underscores may group. *)
Definition ref_int_of_str (s : string) : exn + Z :=
  let bad :=
    inl (Exn ValueError
           ("invalid literal for int() with base 10: " ++ repr_str s)) in
  let t := strip s in
  let (neg, u) :=
    match t with
    | String "-" r => (true, r)
    | String "+" r => (false, r)
    | _ => (false, t)
    end in
  match natural (ungroup false u) with
  | Some (n, EmptyString) => inr (if neg : bool then - n else n)
  | _ => bad
  end.

Definition repr_key (k : pykey) : string :=
  match k with
  | KNone => "None"
  | KBool true => "True"
  | KBool false => "False"
  | KInt z => str_of_Z z
  | KStr s => repr_str s
  end.

Fixpoint ref_repr (v : pyobj) : string :=
  match v with
  | PNone => "None"
  | PBool true => "True"
  | PBool false => "False"
  | PInt z => str_of_Z z
  | PStr s => repr_str s
  | PList l =>
      "[" ++
      (fix elems (l : list pyobj) : string :=
         match l with
         | [] => ""
         | x :: r =>
             ref_repr x ++ match r with [] => "" | _ => ", " ++ elems r end
         end) l ++ "]"
  | PDict items =>
      "{" ++
      (fix members (l : list (pykey * pyobj)) : string :=
         match l with
         | [] => ""
         | (k, x) :: r =>
             repr_key k ++ ": " ++ ref_repr x
             ++ match r with [] => "" | _ => ", " ++ members r end
         end) items ++ "}"
  end.

Definition class_name (c : exc_class) : string :=
  match c with
  | InvalidContentType => "tempest.lib.exceptions.InvalidContentType"
  | InvalidHttpSuccessCode => "tempest.lib.exceptions.InvalidHttpSuccessCode"
  | KeyError => "KeyError"
  | ValueError => "ValueError"
  | TypeError => "TypeError"
  | ExcNamed name => name
  end.

Definition ref_str_of_class (c : exc_class) : string :=
  "<class " ++ String squote (class_name c ++ String squote ">").

(** Ancestors: every class derives from [Exception] and [BaseException],
    [KeyError] from [LookupError] as well, and the two tempest errors from
    their kind of [RestClientException], which is a [TempestException] and
    an [AssertionError]. *)
Definition ref_bases (c : exc_class) : list exc_class :=
  let top := [ExcNamed "Exception"; ExcNamed "BaseException"] in
  let rest_client :=
    ExcNamed "tempest.lib.exceptions.RestClientException"
    :: ExcNamed "tempest.lib.exceptions.TempestException"
    :: ExcNamed "AssertionError" :: top in
  match c with
  | InvalidContentType =>
      ExcNamed "tempest.lib.exceptions.ClientRestClientException"
      :: rest_client
  | InvalidHttpSuccessCode =>
      ExcNamed "tempest.lib.exceptions.OtherRestClientException"
      :: rest_client
  | KeyError => ExcNamed "LookupError" :: top
  | ValueError | TypeError => top
  | ExcNamed name =>
      if String.eqb name "BaseException" then []
      else if String.eqb name "Exception" then [ExcNamed "BaseException"]
      else top
  end.

#[export] Instance pylib : PyLib := {
  json_dumps v := inr (dumps v);
  json_loads := loads;
  urlencode := ref_urlencode;
  int_of_str := ref_int_of_str;
  repr := ref_repr;
  str_of_class := ref_str_of_class;
  bases := ref_bases
}.

(** *** Zone files *)

Record zone : Type := { origin : string; ttl : Z; records : list string }.

(** [s.split(sep)]. *)
Fixpoint split (sep : ascii) (s : string) : list string :=
  match s with
  | EmptyString => [""]
  | String c r =>
      if Ascii.eqb c sep then "" :: split sep r
      else
        match split sep r with
        | x :: l => String c x :: l
        | [] => [str1 c]
        end
  end.

Definition nonempty (s : string) : bool :=
  match s with EmptyString => false | _ => true end.

(** Modelled from the spec: [ZoneFile.from_text] is defined in
    [common/models.py], outside this module; the spec says that it parses
    zone-file text into a structured zone representation.  This one reads
    the [$ORIGIN] and [$TTL] directives of the first two lines and keeps
    the record lines that follow. *)
Definition zone_from_text (text : string) : exn + zone :=
  let lines := filter (fun x => nonempty x) (map strip (split (chr 10) text)) in
  match lines with
  | l0 :: l1 :: rest =>
      match strip_prefix "$ORIGIN " l0, strip_prefix "$TTL " l1 with
      | Some o, Some t =>
          match ref_int_of_str t with
          | inr n => inr {| origin := o; ttl := n; records := rest |}
          | inl e => inl e
          end
      | _, _ => inl (Exn (ExcNamed "AssertionError") "")
      end
  | _ => inl (Exn (ExcNamed "IndexError") "list index out of range")
  end.

#[export] Instance zonefile : ZoneFileModel := {
  ZoneFile := zone;
  from_text := zone_from_text
}.

(** *** A simulated transport *)

(** Every request is answered with [resp] and [body]. *)
Definition simulated (prefix : string) (resp : Resp) (body : string)
  : RestClient := {|
  uri_prefix := prefix;
  post _ _ _ _ := ret (resp, body);
  get _ _ := ret (resp, body);
  put _ _ := ret (resp, body);
  patch _ _ := ret (resp, body);
  delete _ := ret (resp, body)
|}.

(** A response with a status and a content type. *)
Definition response (st : pyobj) (content_type : string) : Resp :=
  {| status := st; headers := {[ "content-type" := content_type ]} |}.

End Reference.

(** ** Transport failures and failing collaborators *)

Section TransportFailures.
Context `{lib : PyLib} `{zf : ZoneFileModel} `{client : RestClient}.

(** The helper's one transport call, issued from log [l], raised [e],
    leaving log [l1]. *)
Definition transport_raises (v : verb) (a : call_args) (l : log) (e : exn)
  (l1 : log) : Prop :=
  match v with
  | Create =>
      exists s, json_dumps (arg_object_dict a) = inr s /\
        post (get_uri (arg_resource a) None (arg_params a)) s
          (arg_headers a) (arg_extra_headers a) l = (inl e, l1)
  | Show =>
      get (get_uri (arg_resource a) (arg_uuid a) (arg_params a))
        (arg_headers a) l = (inl e, l1)
  | List_ =>
      get (get_uri (arg_resource a) None (arg_params a)) None l = (inl e, l1)
  | Replace =>
      exists s, json_dumps (arg_object_dict a) = inr s /\
        put (get_uri (arg_resource a) (arg_uuid a) (arg_params a)) s l
        = (inl e, l1)
  | Update =>
      exists s, json_dumps (arg_object_dict a) = inr s /\
        patch (get_uri (arg_resource a) (arg_uuid a) (arg_params a)) s l
        = (inl e, l1)
  | Delete =>
      delete (get_uri (arg_resource a) (arg_uuid a) (arg_params a)) l
      = (inl e, l1)
  end.

End TransportFailures.

(** ** What the caller of a decorated operation sees *)

(** Python has one [None]: the caller cannot tell the [None] that [f] itself
    returned from the one the wrapper returns after an ignored error.
    [visible none m] is the outcome of the wrapped call [m] as its caller
    sees it, [none] being the value of [R] that stands for [None]. *)
Definition visible {R : Type} (none : R) (m : M (option R)) : M R :=
  o <- m ;; ret (default none o).

(** Collaborators that fail, to run the client on: a JSON library whose
    [dumps] raises, and a transport on which every request raises after
    logging one line. *)
Module Faults.

Definition failing_dumps (e : exn) : PyLib := {|
  json_dumps _ := inl e;
  json_loads := Reference.loads;
  urlencode := Reference.ref_urlencode;
  int_of_str := Reference.ref_int_of_str;
  repr := Reference.ref_repr;
  str_of_class := Reference.ref_str_of_class;
  bases := Reference.ref_bases
|}.

Definition failing_request {A : Type} (e : exn) : M A :=
  LOG DEBUG "request failed" ;;; raise e.

Definition unreachable (prefix : string) (e : exn) : RestClient := {|
  uri_prefix := prefix;
  post _ _ _ _ := failing_request e;
  get _ _ := failing_request e;
  put _ _ := failing_request e;
  patch _ _ := failing_request e;
  delete _ := failing_request e
|}.

End Faults.

(** * Properties *)

(** ** Strings *)

Lemma prefix_app (p s : string) :
  String.prefix p s = true <-> exists rest, s = p ++ rest.
Proof.
  revert s. induction p as [|a p IH]; intros s.
  - split; [intros _; exists s; reflexivity | intros _; now destruct s].
  - destruct s as [|b s]; simpl.
    + split; [discriminate | intros [rest Hr]; discriminate].
    + destruct (ascii_dec a b) as [->|Hab].
      * rewrite IH. split; intros [rest Hr]; exists rest.
        -- now rewrite Hr.
        -- now injection Hr.
      * split; [discriminate | intros [rest Hr]; injection Hr; congruence].
Qed.

(** [contains] is the substring test. *)
Lemma contains_substring (needle hay : string) :
  contains needle hay = true <->
  exists before after, hay = before ++ needle ++ after.
Proof.
  induction hay as [|c hay IH]; cbn [contains].
  - rewrite orb_false_r, prefix_app. split.
    + intros [rest Hr]. exists "", rest. exact Hr.
    + intros [before [after Hba]].
      destruct before; simpl in Hba; [now exists after | discriminate].
  - rewrite orb_true_iff, IH, prefix_app. split.
    + intros [[rest Hr] | [before [after Hba]]].
      * exists "", rest. exact Hr.
      * exists (String c before), after. simpl. now rewrite Hba.
    + intros [before [after Hba]]. destruct before as [|b before].
      * left. now exists after.
      * right. exists before, after. simpl in Hba. now injection Hba.
Qed.

(** ** Running computations *)

Lemma bind_ret {A B} (a : A) (k : A -> M B) (l : log) :
  bind (ret a) k l = k a l.
Proof. reflexivity. Qed.

Lemma bind_returns {A B} (m : M A) (k : A -> M B) (l l' : log) (a : A) :
  m l = (inr a, l') -> bind m k l = k a l'.
Proof. intros Hm. unfold bind. now rewrite Hm. Qed.

Lemma bind_raises {A B} (m : M A) (k : A -> M B) (l l' : log) (e : exn) :
  m l = (inl e, l') -> bind m k l = (inl e, l').
Proof. intros Hm. unfold bind. now rewrite Hm. Qed.

Lemma lift_run {A} (r : exn + A) (l : log) : lift r l = (r, l).
Proof. reflexivity. Qed.

Section Deserialize.
Context `{lib : PyLib} `{zf : ZoneFileModel}.

Lemma getitem_present (resp : Resp) (key v : string) (l : log) :
  headers resp !! key = Some v -> getitem resp key l = (inr v, l).
Proof. intros Hk. unfold getitem. now rewrite Hk. Qed.

Lemma getitem_missing (resp : Resp) (key : string) (l : log) :
  headers resp !! key = None ->
  getitem resp key l = (inl (Exn KeyError key), l).
Proof. intros Hk. unfold getitem. now rewrite Hk. Qed.

(** What [deserialize] does on a response that has a content type. *)
Lemma deserialize_run (resp : Resp) (body ct : string) (l : log) :
  headers resp !! "content-type" = Some ct ->
  deserialize resp body l =
    if contains "application/json" ct then
      (match json_loads body with
       | inl e => inl e
       | inr v => inr (Json v)
       end, l)
    else if contains "text/dns" ct then
      (match from_text body with
       | inl e => inl e
       | inr z => inr (Zone z)
       end, l)
    else (inl (Exn InvalidContentType ""), l).
Proof.
  intros Hct. unfold deserialize.
  rewrite (bind_returns _ _ _ _ _ (getitem_present _ _ _ l Hct)).
  destruct (contains "application/json" ct).
  - unfold bind, lift. now destruct (json_loads body).
  - rewrite (bind_returns _ _ _ _ _ (getitem_present _ _ _ l Hct)).
    destruct (contains "text/dns" ct).
    + unfold bind, lift. now destruct (from_text body).
    + reflexivity.
Qed.

(** C1: [deserialize] dispatches on the content-type header of the
    response.  When the header contains "application/json" the outcome is
    that of [json.loads] on the body, as decoded JSON; otherwise, when it
    contains "text/dns", the outcome is that of [ZoneFile.from_text] on
    the body, as a zone file (the result type has no case for a raw
    string); for any other content type [InvalidContentType] is raised.
    The log is left as it was. *)
Theorem deserialize_dispatch (resp : Resp) (body ct : string) (l : log) :
  headers resp !! "content-type" = Some ct ->
  (contains "application/json" ct = true ->
     deserialize resp body l =
       (match json_loads body with
        | inl e => inl e
        | inr v => inr (Json v)
        end, l)) /\
  (contains "application/json" ct = false ->
   contains "text/dns" ct = true ->
     deserialize resp body l =
       (match from_text body with
        | inl e => inl e
        | inr z => inr (Zone z)
        end, l)) /\
  (contains "application/json" ct = false ->
   contains "text/dns" ct = false ->
     raises (deserialize resp body) l InvalidContentType /\
     deserialize resp body l = (inl (Exn InvalidContentType ""), l)).
Proof.
  intros Hct. unfold raises. rewrite (deserialize_run _ _ _ _ Hct).
  split; [| split].
  - intros ->. reflexivity.
  - intros -> ->. reflexivity.
  - intros -> ->. split; [| reflexivity].
    exists (Exn InvalidContentType ""), l. now split.
Qed.

End Deserialize.

(** The dispatch on a "text/plain" response: the third case applies. *)
Lemma deserialize_dispatch_witness :
  headers (Reference.response (PInt 200) "text/plain") !! "content-type"
    = Some "text/plain" /\
  contains "application/json" "text/plain" = false /\
  contains "text/dns" "text/plain" = false /\
  deserialize (lib := Reference.pylib) (zf := Reference.zonefile)
    (Reference.response (PInt 200) "text/plain") "{}" []
    = (inl (Exn InvalidContentType ""), []).
Proof.
  assert (Hct : headers (Reference.response (PInt 200) "text/plain")
                  !! "content-type" = Some "text/plain") by reflexivity.
  split; [exact Hct |]. split; [reflexivity |]. split; [reflexivity |].
  destruct (deserialize_dispatch (lib := Reference.pylib)
              (zf := Reference.zonefile)
              (Reference.response (PInt 200) "text/plain") "{}" "text/plain" []
              Hct) as (_ & _ & Hother).
  exact (proj2 (Hother eq_refl eq_refl)).
Defined.

(** ** get_uri *)

Lemma append_empty_r (s : string) : s ++ "" = s.
Proof. induction s as [|c s IH]; [reflexivity | cbn [append]; now f_equal]. Qed.

Section GetUri.
Context `{lib : PyLib} `{client : RestClient}.

(** C5: the four shapes of a URI.  A uuid or a parameter mapping is present
    when it is given and not empty.  With neither, the URI is
    [prefix/resource], with no trailing slash and no question mark; with a
    uuid only, [prefix/resource/uuid]; with parameters only,
    [prefix/resource?encoded]; with both, [prefix/resource/uuid?encoded]. *)
Theorem get_uri_shapes (resource u : string) (ps : list (string * string)) :
  u <> "" -> ps <> [] ->
  get_uri resource None None = uri_prefix ++ "/" ++ resource /\
  get_uri resource (Some u) None = uri_prefix ++ "/" ++ resource ++ "/" ++ u /\
  get_uri resource None (Some ps)
    = uri_prefix ++ "/" ++ resource ++ "?" ++ urlencode ps /\
  get_uri resource (Some u) (Some ps)
    = uri_prefix ++ "/" ++ resource ++ "/" ++ u ++ "?" ++ urlencode ps.
Proof.
  intros Hu Hps. unfold get_uri.
  destruct u as [|c u]; [congruence |].
  destruct ps as [|p ps]; [congruence |].
  cbn [append]. now rewrite !append_empty_r.
Qed.

(** C10: a falsy optional argument is an absent one.  The empty string as
    uuid and the empty mapping as parameters give the URI that [None] gives
    in their place, whatever the other argument is; with both, the URI is
    [prefix/resource], with no slash and no question mark appended. *)
Theorem get_uri_falsy (resource : string) (uuid : option string)
  (params : option (list (string * string))) :
  get_uri resource (Some "") params = get_uri resource None params /\
  get_uri resource uuid (Some []) = get_uri resource uuid None /\
  get_uri resource (Some "") (Some []) = uri_prefix ++ "/" ++ resource.
Proof.
  unfold get_uri. repeat split. cbn [append]. now rewrite append_empty_r.
Qed.

End GetUri.

(** The four shapes under the prefix [/v2]. *)
Lemma get_uri_shapes_witness :
  let client := Reference.simulated "/v2"
                  (Reference.response (PInt 200) "application/json") "{}" in
  "abc" <> "" /\ [("limit", "5"); ("name", "a b")] <> [] /\
  get_uri (lib := Reference.pylib) "zones" None None = "/v2/zones" /\
  get_uri (lib := Reference.pylib) "zones" (Some "abc") None
    = "/v2/zones/abc" /\
  get_uri (lib := Reference.pylib) "zones" None
    (Some [("limit", "5"); ("name", "a b")]) = "/v2/zones?limit=5&name=a+b" /\
  get_uri (lib := Reference.pylib) "zones" (Some "abc")
    (Some [("limit", "5"); ("name", "a b")])
    = "/v2/zones/abc?limit=5&name=a+b".
Proof.
  intros client.
  assert (Hu : "abc" <> "") by discriminate.
  assert (Hps : [("limit", "5"); ("name", "a b")] <> []) by discriminate.
  split; [exact Hu |]. split; [exact Hps |].
  exact (get_uri_shapes (lib := Reference.pylib) (client := client)
           "zones" "abc" [("limit", "5"); ("name", "a b")] Hu Hps).
Defined.

(** ** expected_success *)

Section ExpectedSuccess.
Context `{lib : PyLib}.

(** C8: on a status that [int] accepts, giving [n], [expected_success] is
    the inherited validator applied to [n], whatever the type of the status
    was.  The log the validator starts from has the warning as its last
    entry exactly when the status is not an [int]; the warning changes
    nothing else.  So a numeric string goes through the same validator
    call as the integer [n] itself. *)
Theorem expected_success_coerces (expected_code : expected) (read_code : pyobj)
  (n : Z) (l : log) :
  int_ read_code = inr n ->
  (isinstance_int read_code = true ->
     expected_success expected_code read_code l
     = RestClient_expected_success expected_code n l) /\
  (isinstance_int read_code = false ->
     expected_success expected_code read_code l
     = RestClient_expected_success expected_code n
         (l ++ [(WARNING, not_int_message expected_code read_code)])%list) /\
  expected_success expected_code (PInt n) l
  = RestClient_expected_success expected_code n l.
Proof.
  intros Hint. unfold expected_success, bind, lift, ret, LOG.
  split; [| split].
  - intros ->. cbn [negb]. now rewrite Hint.
  - intros ->. cbn [negb]. now rewrite Hint.
  - reflexivity.
Qed.

End ExpectedSuccess.

(** The status ["202"], a string: a warning, then the check of 202. *)
Lemma expected_success_coerces_witness :
  int_ (lib := Reference.pylib) (PStr "202") = inr 202 /\
  expected_success (lib := Reference.pylib) (Codes [202; 204]) (PStr "202") []
  = (inr tt,
     [(WARNING,
       "expected_success([202, 204], '202') received not-int read_code '202'")]).
Proof.
  assert (Hint : int_ (lib := Reference.pylib) (PStr "202") = inr 202)
    by reflexivity.
  split; [exact Hint |].
  destruct (expected_success_coerces (lib := Reference.pylib)
              (Codes [202; 204]) (PStr "202") 202 [] Hint) as (_ & Hstr & _).
  rewrite (Hstr eq_refl). reflexivity.
Defined.

(** ** handle_errors *)

Section HandleErrors.
Context `{lib : PyLib} {A K R : Type}.

Lemma issubclass_refl (c : exc_class) : issubclass c c = true.
Proof. unfold issubclass. now rewrite bool_decide_eq_true_2. Qed.

(** A class listed in the tuple is accepted by [except]. *)
Lemma except_matches_In (cs : list exc_class) (e : exn) :
  In (exn_type e) cs -> except_matches cs e = true.
Proof.
  intros Hin. unfold except_matches. apply existsb_exists.
  exists (exn_type e). split; [exact Hin | apply issubclass_refl].
Qed.

(** The empty tuple accepts nothing. *)
Lemma except_matches_nil (e : exn) : except_matches [] e = false.
Proof. reflexivity. Qed.

(** The wrapper, by the outcome of the wrapped call. *)
Lemma handle_errors_run (f : A -> K -> M R) (args : A) (kw : kwargs K)
  (l : log) :
  handle_errors f args kw l =
    match f args (others kw) l with
    | (inr r, l') => (inr (Some r), l')
    | (inl e, l') =>
        if except_matches (default [] (ignore_errors kw)) e then
          (inr None,
           (l' ++ [(DEBUG, ("Ignoring exception of type "
                            ++ str_of_class (exn_type e)
                            ++ ", as requested")%string)])%list)
        else (inl e, l')
    end.
Proof.
  unfold handle_errors, try_except, bind, ret, LOG.
  destruct (f args (others kw) l) as [[e | r] l']; [| reflexivity].
  now destruct (except_matches (default [] (ignore_errors kw)) e).
Qed.

(** C4: the wrapper around an operation [f], by what [f] does.  When [f]
    returns [r], the wrapper returns [r], with the log of [f].  When [f]
    raises [e] and the class of [e] is in the [ignore_errors] tuple (or, as
    [except] has it, derives from a class in it), the error is caught, one
    DEBUG entry is appended to the log and the wrapper returns no value.
    When [f] raises [e] and no class of the tuple accepts it, or no
    [ignore_errors] was passed, [e] is raised by the wrapper, unchanged and
    with nothing logged. *)
Theorem handle_errors_suppresses (f : A -> K -> M R) (args : A)
  (kw : kwargs K) (l l' : log) (out : exn + R) :
  f args (others kw) l = (out, l') ->
  (forall r, out = inr r ->
     handle_errors f args kw l = (inr (Some r), l')) /\
  (forall e cs, out = inl e -> ignore_errors kw = Some cs ->
     In (exn_type e) cs \/ except_matches cs e = true ->
     handle_errors f args kw l
     = (inr None,
        (l' ++ [(DEBUG, ("Ignoring exception of type "
                         ++ str_of_class (exn_type e)
                         ++ ", as requested")%string)])%list)) /\
  (forall e cs, out = inl e -> ignore_errors kw = Some cs ->
     except_matches cs e = false ->
     handle_errors f args kw l = (inl e, l')) /\
  (forall e, out = inl e -> ignore_errors kw = None ->
     handle_errors f args kw l = (inl e, l')).
Proof.
  intros Hf. rewrite handle_errors_run, Hf. repeat split.
  - now intros r ->.
  - intros e cs -> -> Hin. change (default [] (Some cs)) with cs.
    assert (Hm : except_matches cs e = true).
    { destruct Hin as [Hin | Hm]; [now apply except_matches_In | exact Hm]. }
    now rewrite Hm.
  - intros e cs -> -> Hm. change (default [] (Some cs)) with cs.
    now rewrite Hm.
  - now intros e -> ->.
Qed.

End HandleErrors.

(** A lookup that raises [KeyError], called with
    [ignore_errors=(LookupError,)]: the error is caught and logged. *)
Lemma handle_errors_suppresses_witness :
  let f := fun (_ _ : unit) => raise (A := Z) (Exn KeyError "content-type") in
  let kw := {| ignore_errors := Some [ExcNamed "LookupError"]; others := tt |} in
  f tt (others kw) [] = (inl (Exn KeyError "content-type"), []) /\
  except_matches (lib := Reference.pylib) [ExcNamed "LookupError"]
    (Exn KeyError "content-type") = true /\
  handle_errors (lib := Reference.pylib) f tt kw []
  = (inr None,
     [(DEBUG, "Ignoring exception of type <class 'KeyError'>, as requested")]).
Proof.
  intros f kw.
  assert (Hf : f tt (others kw) [] = (inl (Exn KeyError "content-type"), []))
    by reflexivity.
  assert (Hm : except_matches (lib := Reference.pylib)
                 [ExcNamed "LookupError"] (Exn KeyError "content-type") = true)
    by reflexivity.
  split; [exact Hf |]. split; [exact Hm |].
  destruct (handle_errors_suppresses (lib := Reference.pylib) f tt kw [] [] _ Hf)
    as (_ & Hcaught & _).
  exact (Hcaught _ _ eq_refl eq_refl (or_intror Hm)).
Defined.

(** ** The verb helpers *)

Section VerbHelpers.
Context `{lib : PyLib} `{zf : ZoneFileModel} `{client : RestClient}.

(** The log after the type check of [expected_success]. *)
Lemma expected_success_run (expected_code : expected) (read_code : pyobj)
  (n : Z) (l : log) :
  int_ read_code = inr n ->
  expected_success expected_code read_code l =
    (if code_expected expected_code n then inr tt
     else inl (Exn InvalidHttpSuccessCode "Unexpected http success status code"),
     if isinstance_int read_code then l
     else (l ++ [(WARNING, not_int_message expected_code read_code)])%list).
Proof.
  intros Hint. unfold expected_success, RestClient_expected_success.
  unfold bind, lift, ret, raise, LOG. rewrite Hint.
  destruct (isinstance_int read_code); cbn [negb];
    now destruct (code_expected expected_code n).
Qed.

(** An error of [deserialize] is a missing header, an unsupported content
    type, or an error of one of the two parsers. *)
Lemma deserialize_error (resp : Resp) (body : string) (l l' : log) (e : exn) :
  deserialize resp body l = (inl e, l') ->
  exn_type e = KeyError \/ exn_type e = InvalidContentType \/
  json_loads body = inl e \/ from_text body = inl e.
Proof.
  destruct (headers resp !! "content-type") as [ct |] eqn:Hct.
  - rewrite (deserialize_run _ _ _ _ Hct).
    destruct (contains "application/json" ct).
    + destruct (json_loads body); intros [= <- _]; auto.
    + destruct (contains "text/dns" ct).
      * destruct (from_text body); intros [= <- _]; auto.
      * intros [= <- _]; auto.
  - unfold deserialize. rewrite (bind_raises _ _ _ _ _ (getitem_missing _ _ l Hct)).
    intros [= <- _]; auto.
Qed.

(** A helper, once its transport call has answered: the status check, and
    then the decoding of the body, which [_delete_request] does only for
    the status 202. *)
Lemma call_run (v : verb) (a : call_args) (l l1 : log) (resp : Resp)
  (body : string) :
  responds v a l resp body l1 ->
  call v a l =
    match expected_success (expected_of v) (status resp) l1 with
    | (inl e, l2) => (inl e, l2)
    | (inr _, l2) =>
        let decode :=
          match deserialize resp body l2 with
          | (inl e, l3) => (inl e, l3)
          | (inr d, l3) => (inr (resp, inr d), l3)
          end in
        match v with
        | Delete =>
            if eq_int (status resp) 202 then decode
            else (inr (resp, inl body), l2)
        | _ => decode
        end
    end.
Proof.
  destruct v; cbn [responds call expected_of];
    unfold _create_request, _show_request, _list_request, _put_request,
      _update_request, _delete_request, serialize, decoded_body;
    unfold bind, lift, ret.
  1, 4, 5: intros (s & -> & ->).
  4-6: intros ->.
  all: destruct (expected_success _ (status resp) l1) as [[e | []] l2];
    [reflexivity |].
  all: try (destruct (eq_int (status resp) 202); [| reflexivity]).
  all: now destruct (deserialize resp body l2) as [[e | d] l3].
Qed.

(** The codes a helper passes to the validator are the ones the
    specification lists for it. *)
Lemma code_expected_spec_codes (v : verb) (n : Z) :
  code_expected (expected_of v) n = true <-> In n (spec_codes v).
Proof.
  destruct v; cbn [expected_of spec_codes code_expected existsb In];
    rewrite ?orb_true_iff, ?orb_false_r, ?Z.eqb_eq; intuition congruence.
Qed.

(** C2: for each of the six helpers, once the transport has answered with a
    response whose status [int] turns into [n], the helper raises
    [InvalidHttpSuccessCode] if and only if [n] is not one of the codes the
    specification lists for it.  The two parsers are assumed not to raise
    that class themselves. *)
Theorem helper_rejects_unexpected_status (v : verb) (a : call_args)
  (l l1 : log) (resp : Resp) (body : string) (n : Z) :
  responds v a l resp body l1 ->
  int_ (status resp) = inr n ->
  (forall s e, json_loads s = inl e -> exn_type e <> InvalidHttpSuccessCode) ->
  (forall s e, from_text s = inl e -> exn_type e <> InvalidHttpSuccessCode) ->
  raises (call v a) l InvalidHttpSuccessCode <-> ~ In n (spec_codes v).
Proof.
  intros Hresp Hint Hjson Hzone. unfold raises.
  rewrite (call_run _ _ _ _ _ _ Hresp), (expected_success_run _ _ _ _ Hint).
  rewrite <- code_expected_spec_codes.
  destruct (code_expected (expected_of v) n).
  - split; [| intros Hn; now contradiction Hn].
    intros (e & l' & Hrun & Hclass). exfalso.
    assert (Hdecode : forall l2,
              match deserialize resp body l2 with
              | (inl e0, l3) => (inl e0, l3)
              | (inr d, l3) =>
                  (inr (resp, inr d) : exn + Resp * (string + decoded), l3)
              end = (inl e, l') -> False).
    { intros l2. destruct (deserialize resp body l2) as [[e0 | d] l3] eqn:Hd;
        [| discriminate].
      intros [= -> ->].
      destruct (deserialize_error _ _ _ _ _ Hd) as [Hk | [Hc | [Hj | Hz]]];
        [congruence | congruence | |].
      - exact (Hjson _ _ Hj Hclass).
      - exact (Hzone _ _ Hz Hclass). }
    destruct v; cbv zeta in Hrun;
      try (destruct (eq_int (status resp) 202); [| discriminate]);
      exact (Hdecode _ Hrun).
  - split; [intros _; discriminate |].
    intros _. eexists _, _. split; [reflexivity | reflexivity].
Qed.

(** C9: the status is validated before the body is decoded.  When the
    status [n] of the answer is outside the codes of the helper, the
    outcome of the helper is the error of the validator, with the log the
    validator left: nothing of it depends on the headers or on the body, so
    no missing or unsupported content type is reported in its place. *)
Theorem status_checked_before_decoding (v : verb) (a : call_args) (l l1 : log)
  (resp : Resp) (body : string) (n : Z) :
  responds v a l resp body l1 ->
  int_ (status resp) = inr n ->
  ~ In n (spec_codes v) ->
  call v a l = expected_success_failure (expected_of v) (status resp) l1 /\
  raises (call v a) l InvalidHttpSuccessCode /\
  ~ raises (call v a) l InvalidContentType /\
  ~ raises (call v a) l KeyError.
Proof.
  intros Hresp Hint Hn. unfold raises, expected_success_failure.
  rewrite (call_run _ _ _ _ _ _ Hresp), (expected_success_run _ _ _ _ Hint).
  rewrite <- code_expected_spec_codes in Hn.
  destruct (code_expected (expected_of v) n); [now contradiction Hn |].
  repeat split.
  - eexists _, _. split; reflexivity.
  - intros (e & l' & [= <- _] & Hclass). discriminate.
  - intros (e & l' & [= <- _] & Hclass). discriminate.
Qed.

End VerbHelpers.

(** ** Delete, create and the round trip *)

Section Operations.
Context `{lib : PyLib} `{zf : ZoneFileModel} `{client : RestClient}.

(** C6: [_delete_request] on an answer whose status the validator accepted.
    When the status is 202, the body is decoded: the helper returns the
    response with the decoded body, or raises what [deserialize] raises.
    When the status is 204, the helper returns the response with the body
    text as received; the headers are not read, so a missing or unsupported
    content type goes unnoticed. *)
Theorem delete_decodes_only_202 (resource : string) (uuid : option string)
  (params : option (list (string * string))) (l l1 l2 : log) (resp : Resp)
  (body : string) :
  delete (get_uri resource uuid params) l = (inr (resp, body), l1) ->
  expected_success (Codes [202; 204]) (status resp) l1 = (inr tt, l2) ->
  (status resp = PInt 202 ->
     _delete_request resource uuid params l =
       match deserialize resp body l2 with
       | (inl e, l3) => (inl e, l3)
       | (inr d, l3) => (inr (resp, inr d), l3)
       end) /\
  (status resp = PInt 204 ->
     _delete_request resource uuid params l = (inr (resp, inl body), l2)).
Proof.
  intros Hdelete Hstatus.
  pose proof (call_run Delete
                {| arg_resource := resource; arg_uuid := uuid;
                   arg_object_dict := PNone; arg_params := params;
                   arg_headers := None; arg_extra_headers := false |}
                l l1 resp body Hdelete) as Hrun.
  cbn [call expected_of arg_resource arg_uuid arg_params] in Hrun.
  rewrite Hstatus in Hrun. rewrite Hrun.
  split; intros ->; reflexivity.
Qed.

(** C3: the decorated create operation on a simulated answer.  With status
    201 and a body that [deserialize] decodes, it returns the response and
    the decoded body.  With status 404 and no [ignore_errors], or a tuple
    that does not accept the error, it raises [InvalidHttpSuccessCode].
    With status 404 and [InvalidHttpSuccessCode] in [ignore_errors], it
    returns no value and the log ends with the DEBUG entry. *)
Theorem create_operation_outcomes (resource s body : string)
  (object_dict : pyobj) (params : option (list (string * string)))
  (hdrs : option (gmap string string)) (l l1 : log) (resp : Resp) :
  json_dumps object_dict = inr s ->
  post (get_uri resource None params) s hdrs false l = (inr (resp, body), l1) ->
  (status resp = PInt 201 ->
   forall d l2 ignored, deserialize resp body l1 = (inr d, l2) ->
     create_operation (resource, object_dict)
       {| ignore_errors := ignored; others := (params, hdrs) |} l
     = (inr (Some (resp, d)), l2)) /\
  (status resp = PInt 404 ->
   forall ignored,
     ignored = None \/
     (exists cs, ignored = Some cs /\
        except_matches cs
          (Exn InvalidHttpSuccessCode "Unexpected http success status code")
        = false) ->
     create_operation (resource, object_dict)
       {| ignore_errors := ignored; others := (params, hdrs) |} l
     = (inl (Exn InvalidHttpSuccessCode "Unexpected http success status code"),
        l1)) /\
  (status resp = PInt 404 ->
   forall cs, In InvalidHttpSuccessCode cs ->
     create_operation (resource, object_dict)
       {| ignore_errors := Some cs; others := (params, hdrs) |} l
     = (inr None,
        (l1 ++ [(DEBUG, ("Ignoring exception of type "
                         ++ str_of_class InvalidHttpSuccessCode
                         ++ ", as requested")%string)])%list)).
Proof.
  intros Hdumps Hpost.
  assert (Hresp : responds Create
            {| arg_resource := resource; arg_uuid := None;
               arg_object_dict := object_dict; arg_params := params;
               arg_headers := hdrs; arg_extra_headers := false |}
            l resp body l1) by (exists s; now split).
  assert (Hcreate : _create_request resource object_dict params hdrs false l =
            match expected_success (Codes [201; 202]) (status resp) l1 with
            | (inl e, l2) => (inl e, l2)
            | (inr _, l2) =>
                match deserialize resp body l2 with
                | (inl e, l3) => (inl e, l3)
                | (inr d, l3) => (inr (resp, d), l3)
                end
            end).
  { unfold _create_request, serialize, bind, lift, ret.
    rewrite Hdumps, Hpost.
    destruct (expected_success _ (status resp) l1) as [[e | []] l2];
      [reflexivity |].
    now destruct (deserialize resp body l2) as [[e | d] l3]. }
  unfold create_operation.
  split; [| split]; intros Hst.
  - intros d l2 ignored Hd.
    rewrite handle_errors_run. cbn [fst snd others]. rewrite Hcreate, Hst.
    rewrite (expected_success_run (Codes [201; 202]) (PInt 201) 201 l1 eq_refl).
    cbn. now rewrite Hd.
  - intros ignored Hign.
    rewrite handle_errors_run. cbn [fst snd others ignore_errors].
    rewrite Hcreate, Hst.
    rewrite (expected_success_run (Codes [201; 202]) (PInt 404) 404 l1 eq_refl).
    cbn.
    destruct Hign as [-> | (cs & -> & Hm)]; [reflexivity |].
    change (default [] (Some cs)) with cs. now rewrite Hm.
  - intros cs Hin.
    rewrite handle_errors_run. cbn [fst snd others ignore_errors].
    rewrite Hcreate, Hst.
    rewrite (expected_success_run (Codes [201; 202]) (PInt 404) 404 l1 eq_refl).
    cbn [code_expected existsb Z.eqb Pos.eqb orb isinstance_int].
    change (default [] (Some cs)) with cs.
    rewrite (except_matches_In cs
               (Exn InvalidHttpSuccessCode "Unexpected http success status code")
               Hin).
    reflexivity.
Qed.


End Operations.

(** ** The helpers on the reference environment *)

(** The reference parsers raise [ValueError], [AssertionError] or
    [IndexError], never the wrong-HTTP-status error. *)
Lemma reference_loads_error (s : string) (e : exn) :
  Reference.loads s = inl e -> exn_type e = ValueError.
Proof.
  unfold Reference.loads.
  destruct (Reference.value _ s) as [[v rest] |]; [| now intros [= <-]].
  destruct (Reference.skip_ws rest); [discriminate | now intros [= <-]].
Qed.

Lemma reference_int_of_str_error (s : string) (e : exn) :
  Reference.ref_int_of_str s = inl e -> exn_type e = ValueError.
Proof.
  unfold Reference.ref_int_of_str.
  destruct (Reference.strip s) as [| c t].
  - destruct (Reference.natural _) as [[n [| c r]] |];
      [discriminate | now intros [= <-] ..].
  - match goal with
    | |- context [let (_, _) := ?p in _] => destruct p as [neg u]
    end.
    destruct (Reference.natural _) as [[n [| c' r]] |];
      [discriminate | now intros [= <-] ..].
Qed.

Lemma reference_from_text_error (s : string) (e : exn) :
  Reference.zone_from_text s = inl e ->
  exn_type e <> InvalidHttpSuccessCode.
Proof.
  unfold Reference.zone_from_text.
  destruct (filter _ _) as [| l0 [| l1 rest]]; try now intros [= <-].
  destruct (Reference.strip_prefix "$ORIGIN " l0); [| now intros [= <-]].
  destruct (Reference.strip_prefix "$TTL " l1) as [t |]; [| now intros [= <-]].
  destruct (Reference.ref_int_of_str t) as [e' | n] eqn:Hint; [| discriminate].
  intros [= <-]. now rewrite (reference_int_of_str_error _ _ Hint).
Qed.

(** Show on an answer with status 404: 404 is not in {200}, and the helper
    raises the wrong-HTTP-status error. *)
Lemma helper_rejects_unexpected_status_witness :
  let lib := Reference.pylib in
  let zf := Reference.zonefile in
  let resp := Reference.response (PInt 404) "application/json" in
  let client := Reference.simulated "/v2" resp "{}" in
  let a := {| arg_resource := "zones"; arg_uuid := Some "abc";
              arg_object_dict := PNone; arg_params := None;
              arg_headers := None; arg_extra_headers := false |} in
  responds Show a [] resp "{}" [] /\
  int_ (status resp) = inr 404 /\
  ~ In 404 (spec_codes Show) /\
  raises (call Show a) [] InvalidHttpSuccessCode.
Proof.
  intros lib zf resp client a.
  assert (Hresp : responds Show a [] resp "{}" []) by reflexivity.
  assert (Hint : int_ (status resp) = inr 404) by reflexivity.
  assert (Hn : ~ In 404 (spec_codes Show)).
  { cbn. intros [H | []]. discriminate H. }
  split; [exact Hresp |]. split; [exact Hint |]. split; [exact Hn |].
  apply (helper_rejects_unexpected_status Show a [] [] resp "{}" 404 Hresp Hint).
  - intros s e He. cbn in He. now rewrite (reference_loads_error s e He).
  - intros s e He. exact (reference_from_text_error s e He).
  - exact Hn.
Defined.

(** Create on an answer with status 404 and the content type "text/plain":
    the status error is the outcome, not the content-type error. *)
Lemma status_checked_before_decoding_witness :
  let lib := Reference.pylib in
  let zf := Reference.zonefile in
  let resp := Reference.response (PInt 404) "text/plain" in
  let client := Reference.simulated "/v2" resp "not found" in
  let a := {| arg_resource := "zones"; arg_uuid := None;
              arg_object_dict := PDict [(KStr "name", PStr "example.com.")];
              arg_params := None; arg_headers := None;
              arg_extra_headers := false |} in
  responds Create a [] resp "not found" [] /\
  int_ (status resp) = inr 404 /\
  ~ In 404 (spec_codes Create) /\
  call Create a []
  = (inl (Exn InvalidHttpSuccessCode "Unexpected http success status code"),
     []).
Proof.
  intros lib zf resp client a.
  assert (Hresp : responds Create a [] resp "not found" []).
  { eexists. split; reflexivity. }
  assert (Hint : int_ (status resp) = inr 404) by reflexivity.
  assert (Hn : ~ In 404 (spec_codes Create)).
  { cbn. intros [H | [H | []]]; discriminate H. }
  split; [exact Hresp |]. split; [exact Hint |]. split; [exact Hn |].
  exact (proj1 (status_checked_before_decoding Create a [] [] resp "not found"
                  404 Hresp Hint Hn)).
Defined.

(** Delete on an answer with status 204, an empty body and no content-type
    header: the body comes back as it is. *)
Lemma delete_decodes_only_202_witness :
  let lib := Reference.pylib in
  let zf := Reference.zonefile in
  let resp := {| status := PInt 204; headers := ∅ |} in
  let client := Reference.simulated "/v2" resp "" in
  delete (get_uri "zones" (Some "abc") None) [] = (inr (resp, ""), []) /\
  expected_success (Codes [202; 204]) (status resp) [] = (inr tt, []) /\
  _delete_request "zones" (Some "abc") None [] = (inr (resp, inl ""), []).
Proof.
  intros lib zf resp client.
  assert (Hdelete : delete (get_uri "zones" (Some "abc") None) []
                    = (inr (resp, ""), [])) by reflexivity.
  assert (Hstatus : expected_success (Codes [202; 204]) (status resp) []
                    = (inr tt, [])) by reflexivity.
  split; [exact Hdelete |]. split; [exact Hstatus |].
  exact (proj2 (delete_decodes_only_202 "zones" (Some "abc") None [] [] []
                  resp "" Hdelete Hstatus) eq_refl).
Defined.

(** Create on an answer with status 404, called with
    [ignore_errors=(InvalidHttpSuccessCode,)]: no value, one DEBUG entry. *)
Lemma create_operation_outcomes_witness :
  let lib := Reference.pylib in
  let zf := Reference.zonefile in
  let resp := Reference.response (PInt 404) "application/json" in
  let client := Reference.simulated "/v2" resp "{}" in
  let zone := PDict [(KStr "name", PStr "example.com.")] in
  json_dumps zone = inr (Reference.dumps zone) /\
  post (get_uri "zones" None None) (Reference.dumps zone) None false []
  = (inr (resp, "{}"), []) /\
  create_operation ("zones", zone)
    {| ignore_errors := Some [InvalidHttpSuccessCode];
       others := (None, None) |} []
  = (inr None,
     [(DEBUG,
       "Ignoring exception of type <class 'tempest.lib.exceptions.InvalidHttpSuccessCode'>, as requested")]).
Proof.
  intros lib zf resp client zone.
  assert (Hdumps : json_dumps zone = inr (Reference.dumps zone))
    by reflexivity.
  assert (Hpost : post (get_uri "zones" None None) (Reference.dumps zone)
                    None false []
                  = (inr (resp, "{}"), [])) by reflexivity.
  split; [exact Hdumps |]. split; [exact Hpost |].
  destruct (create_operation_outcomes "zones" _ "{}" zone None None [] [] resp
              Hdumps Hpost) as (_ & _ & Hignored).
  exact (Hignored eq_refl [InvalidHttpSuccessCode] (or_introl eq_refl)).
Defined.

(** ** The client on sample answers *)

(** Delete answered with 202 and JSON: the decoded body comes back. *)
Example delete_202_json :
  let lib := Reference.pylib in
  let zf := Reference.zonefile in
  let resp := Reference.response (PInt 202) "application/json" in
  let client := Reference.simulated "/v2" resp "[1, 2]" in
  _delete_request "zones" (Some "abc") None []
  = (inr (resp, inr (Json (PList [PInt 1; PInt 2]))), []).
Proof. reflexivity. Qed.

(** Show answered with a zone file: the body is parsed, not passed on. *)
Example show_zone_file :
  let lib := Reference.pylib in
  let zf := Reference.zonefile in
  let resp := Reference.response (PInt 200) "text/dns" in
  let text := String.concat (Reference.str1 (Reference.chr 10))
                ["$ORIGIN example.com."; "$TTL 300";
                 "example.com. 300 IN NS ns1.example.com."] in
  let client := Reference.simulated "/v2" resp text in
  _show_request "zones/export" (Some "abc") None None []
  = (inr (resp,
          Zone {| Reference.origin := "example.com.";
                  Reference.ttl := 300;
                  Reference.records :=
                    ["example.com. 300 IN NS ns1.example.com."] |}), []).
Proof. reflexivity. Qed.

(** A status that is the string ['202']: [expected_success] warns and
    accepts it as 202, but [resp.status == 202] is false for a string, so
    [_delete_request] returns the body as received. *)
Example delete_string_status :
  let lib := Reference.pylib in
  let zf := Reference.zonefile in
  let resp := Reference.response (PStr "202") "application/json" in
  let client := Reference.simulated "/v2" resp "[1, 2]" in
  _delete_request "zones" (Some "abc") None []
  = (inr (resp, inl "[1, 2]"),
     [(WARNING,
       "expected_success([202, 204], '202') received not-int read_code '202'")]).
Proof. reflexivity. Qed.

(** A status that [int] refuses: the warning is logged, then [int]
    raises. *)
Example expected_success_not_a_number :
  expected_success (lib := Reference.pylib) (Code 200) (PStr "OK") []
  = (inl (Exn ValueError "invalid literal for int() with base 10: 'OK'"),
     [(WARNING, "expected_success(200, 'OK') received not-int read_code 'OK'")]).
Proof. reflexivity. Qed.

(** An answer without a content-type header: [resp['content-type']]
    raises [KeyError]. *)
Example deserialize_no_content_type :
  deserialize (lib := Reference.pylib) (zf := Reference.zonefile)
    {| status := PInt 200; headers := ∅ |} "{}" []
  = (inl (Exn KeyError "content-type"), []).
Proof. reflexivity. Qed.

(** ** The reference JSON codec reads back what it writes *)

Module ReferenceFacts.
Import Reference.



(** *** Numerals *)













(** *** String literals *)











Lemma expect_space (c : ascii) (t : string) : expect c (String " " t) = expect c t.
Proof. reflexivity. Qed.





(** *** The shape of what [dumps] writes *)






(** *** Induction on values *)


(** *** Reading back what was written *)





















End ReferenceFacts.




(** A dictionary in which a key occurs twice is not a Python dictionary,
    and is not read back: the later value replaces the earlier one. *)
Example duplicate_key_not_read_back :
  Reference.loads
    (Reference.dumps (PDict [(KStr "a", PInt 1); (KStr "a", PInt 2)]))
  = inr (PDict [(KStr "a", PInt 2)]).
Proof. reflexivity. Qed.

(** * Further properties of the client *)

Lemma string_app_assoc (a b c : string) : (a ++ b) ++ c = a ++ b ++ c.
Proof. induction a as [| x a IH]; [reflexivity | cbn [append]; now f_equal]. Qed.

Section MoreDeserialize.
Context `{lib : PyLib} `{zf : ZoneFileModel}.

(** X1: the content type is matched by substring, JSON first.  A header
    that has "application/json" anywhere in it (with parameters after it,
    or another type before it, even "text/dns") sends the body to
    [json.loads]. *)
Theorem deserialize_json_anywhere (resp : Resp) (body before after : string)
  (l : log) :
  headers resp !! "content-type"
  = Some (before ++ "application/json" ++ after) ->
  deserialize resp body l =
    (match json_loads body with
     | inl e => inl e
     | inr v => inr (Json v)
     end, l).
Proof.
  intros Hct. rewrite (deserialize_run _ _ _ _ Hct).
  assert (Hin : contains "application/json"
                  (before ++ "application/json" ++ after) = true).
  { apply contains_substring. now exists before, after. }
  now rewrite Hin.
Qed.

(** X2: a response without a content-type header.  [deserialize] raises
    [KeyError] for the missing key, whatever the body is; no parser is
    tried and no content-type error is reported. *)
Theorem deserialize_without_content_type (resp : Resp) (body : string)
  (l : log) :
  headers resp !! "content-type" = None ->
  deserialize resp body l = (inl (Exn KeyError "content-type"), l).
Proof.
  intros Hct. unfold deserialize.
  now rewrite (bind_raises _ _ _ _ _ (getitem_missing _ _ l Hct)).
Qed.

(** X3: neither [serialize] nor [deserialize] logs: whatever the payload,
    the response and the body are, and whether they return or raise, the
    log is the one they started from. *)
Theorem codec_keeps_log (m : pyobj) (resp : Resp) (body : string) (l : log) :
  snd (serialize m l) = l /\ snd (deserialize resp body l) = l.
Proof.
  split; [reflexivity |].
  destruct (headers resp !! "content-type") as [ct |] eqn:Hct.
  - rewrite (deserialize_run _ _ _ _ Hct).
    now destruct (contains "application/json" ct), (contains "text/dns" ct).
  - unfold deserialize.
    now rewrite (bind_raises _ _ _ _ _ (getitem_missing _ _ l Hct)).
Qed.

End MoreDeserialize.

Lemma deserialize_json_anywhere_witness :
  let lib := Reference.pylib in
  let zf := Reference.zonefile in
  let resp := Reference.response (PInt 200)
                ("text/dns, " ++ "application/json" ++ "; charset=UTF-8") in
  headers resp !! "content-type"
  = Some ("text/dns, " ++ "application/json" ++ "; charset=UTF-8") /\
  deserialize resp "[1]" [] = (inr (Json (PList [PInt 1])), []).
Proof.
  intros lib zf resp.
  assert (Hct : headers resp !! "content-type"
                = Some ("text/dns, " ++ "application/json" ++ "; charset=UTF-8"))
    by reflexivity.
  split; [exact Hct |].
  exact (deserialize_json_anywhere resp "[1]" "text/dns, " "; charset=UTF-8"
           [] Hct).
Defined.

Lemma deserialize_without_content_type_witness :
  let lib := Reference.pylib in
  let zf := Reference.zonefile in
  let resp := {| status := PInt 200;
                 headers := {[ "content-length" := "2" ]} |} in
  headers resp !! "content-type" = None /\
  deserialize resp "{}" [] = (inl (Exn KeyError "content-type"), []).
Proof.
  intros lib zf resp.
  assert (Hct : headers resp !! "content-type" = None) by reflexivity.
  split; [exact Hct |].
  exact (deserialize_without_content_type resp "{}" [] Hct).
Defined.

Section MoreHandleErrors.
Context `{lib : PyLib} {A K R : Type}.

(** X4: with nothing to ignore the decorator is transparent.  When
    [ignore_errors] is not passed, or is the empty tuple, the wrapper
    returns what [f] returns, raises what [f] raises, and leaves the log
    as [f] left it. *)
Theorem handle_errors_transparent (f : A -> K -> M R) (args : A)
  (kw : kwargs K) (l : log) :
  ignore_errors kw = None \/ ignore_errors kw = Some [] ->
  handle_errors f args kw l =
    match f args (others kw) l with
    | (inl e, l') => (inl e, l')
    | (inr r, l') => (inr (Some r), l')
    end.
Proof.
  intros Hnone. rewrite handle_errors_run.
  destruct (f args (others kw) l) as [[e | r] l']; [| reflexivity].
  now destruct Hnone as [-> | ->].
Qed.

(** X5: the decorator raises nothing of its own.  An error that leaves the
    wrapper is the very error [f] raised, with the log of [f], and no class
    of [ignore_errors] accepts it. *)
Theorem handle_errors_no_new_error (f : A -> K -> M R) (args : A)
  (kw : kwargs K) (l l' : log) (e : exn) :
  handle_errors f args kw l = (inl e, l') ->
  f args (others kw) l = (inl e, l') /\
  except_matches (default [] (ignore_errors kw)) e = false.
Proof.
  rewrite handle_errors_run.
  destruct (f args (others kw) l) as [[e0 | r] l0]; [| discriminate].
  destruct (except_matches (default [] (ignore_errors kw)) e0) eqn:Hm;
    [discriminate |].
  intros [= <- <-]. now split.
Qed.

(** X6: suppression follows the class hierarchy.  An error is caught also
    when [ignore_errors] lists one of the ancestors of its class, not the
    class itself. *)
Theorem handle_errors_catches_descendants (f : A -> K -> M R) (args : A)
  (kw : kwargs K) (l l' : log) (e : exn) (cs : list exc_class)
  (c : exc_class) :
  f args (others kw) l = (inl e, l') ->
  ignore_errors kw = Some cs ->
  In c cs -> In c (bases (exn_type e)) ->
  handle_errors f args kw l
  = (inr None,
     (l' ++ [(DEBUG, ("Ignoring exception of type "
                      ++ str_of_class (exn_type e)
                      ++ ", as requested")%string)])%list).
Proof.
  intros Hf Hkw Hc Hbase. rewrite handle_errors_run, Hf, Hkw.
  change (default [] (Some cs)) with cs.
  assert (Hm : except_matches cs e = true).
  { unfold except_matches. apply existsb_exists. exists c. split; [exact Hc |].
    unfold issubclass. apply orb_true_iff. right.
    apply existsb_exists. exists c. split; [exact Hbase |].
    now apply bool_decide_eq_true_2. }
  now rewrite Hm.
Qed.

End MoreHandleErrors.

Lemma handle_errors_transparent_witness :
  let f := fun (_ _ : unit) => raise (A := Z) (Exn ValueError "bad") in
  let kw := {| ignore_errors := Some []; others := tt |} in
  (ignore_errors kw = None \/ ignore_errors kw = Some []) /\
  handle_errors (lib := Reference.pylib) f tt kw []
  = (inl (Exn ValueError "bad"), []).
Proof.
  intros f kw.
  assert (Hkw : ignore_errors kw = None \/ ignore_errors kw = Some [])
    by (right; reflexivity).
  split; [exact Hkw |].
  exact (handle_errors_transparent (lib := Reference.pylib) f tt kw [] Hkw).
Defined.

Lemma handle_errors_no_new_error_witness :
  let f := fun (_ _ : unit) => raise (A := Z) (Exn ValueError "bad") in
  let kw := {| ignore_errors := Some [KeyError]; others := tt |} in
  handle_errors (lib := Reference.pylib) f tt kw []
  = (inl (Exn ValueError "bad"), []) /\
  f tt (others kw) [] = (inl (Exn ValueError "bad"), []).
Proof.
  intros f kw.
  assert (Hw : handle_errors (lib := Reference.pylib) f tt kw []
               = (inl (Exn ValueError "bad"), [])) by reflexivity.
  split; [exact Hw |].
  exact (proj1 (handle_errors_no_new_error (lib := Reference.pylib)
                  f tt kw [] [] _ Hw)).
Defined.

Lemma handle_errors_catches_descendants_witness :
  let f := fun (_ _ : unit) =>
             raise (A := Z) (Exn InvalidContentType "") in
  let kw := {| ignore_errors := Some [ExcNamed "Exception"]; others := tt |} in
  f tt (others kw) [] = (inl (Exn InvalidContentType ""), []) /\
  In (ExcNamed "Exception") [ExcNamed "Exception"] /\
  In (ExcNamed "Exception") (bases (PyLib := Reference.pylib) InvalidContentType) /\
  handle_errors (lib := Reference.pylib) f tt kw []
  = (inr None,
     [(DEBUG,
       "Ignoring exception of type <class 'tempest.lib.exceptions.InvalidContentType'>, as requested")]).
Proof.
  intros f kw.
  assert (Hf : f tt (others kw) [] = (inl (Exn InvalidContentType ""), []))
    by reflexivity.
  assert (Hc : In (ExcNamed "Exception") [ExcNamed "Exception"])
    by (left; reflexivity).
  assert (Hb : In (ExcNamed "Exception")
                 (bases (PyLib := Reference.pylib) InvalidContentType))
    by (cbn; auto 10).
  split; [exact Hf |]. split; [exact Hc |]. split; [exact Hb |].
  exact (handle_errors_catches_descendants (lib := Reference.pylib)
           f tt kw [] [] _ _ _ Hf eq_refl Hc Hb).
Defined.

(** ** The helpers on failing collaborators *)

(** [int] raises only on what is not an [int] already. *)
Lemma int_error_not_int `{lib : PyLib} (v : pyobj) (e : exn) :
  int_ v = inl e -> isinstance_int v = false.
Proof. now destruct v. Qed.

Section MoreExpectedSuccess.
Context `{lib : PyLib}.

(** On a status that [int] rejects, the warning is logged and the error of
    [int] is raised; the inherited validator is not reached. *)
Lemma expected_success_int_error (expected_code : expected)
  (read_code : pyobj) (e : exn) (l : log) :
  int_ read_code = inl e ->
  expected_success expected_code read_code l
  = (inl e, (l ++ [(WARNING, not_int_message expected_code read_code)])%list).
Proof.
  intros Hint. unfold expected_success, bind, lift, ret, LOG.
  now rewrite (int_error_not_int _ _ Hint), Hint.
Qed.

End MoreExpectedSuccess.

Section MoreGetUri.
Context `{lib : PyLib} `{client : RestClient}.

(** X7: the uuid is pasted into the path as it is.  The URI of an item is
    the URI of the collection named [resource/uuid]: nothing of the uuid is
    escaped, a slash or a question mark in it included. *)
Theorem get_uri_pastes_uuid (resource u : string)
  (params : option (list (string * string))) :
  u <> "" ->
  get_uri resource (Some u) params = get_uri (resource ++ "/" ++ u) None params.
Proof.
  intros Hu. unfold get_uri. destruct u as [| c u]; [congruence |].
  do 2 f_equal. rewrite !string_app_assoc. reflexivity.
Qed.

End MoreGetUri.

Section MoreHelpers.
Context `{lib : PyLib} `{zf : ZoneFileModel} `{client : RestClient}.

(** X8: a payload that [json.dumps] rejects.  The three helpers with a body
    raise the error of [json.dumps] with the log untouched, whatever the
    transport is: no request is made. *)
Theorem unserializable_payload_sends_nothing (resource : string)
  (uuid : option string) (object_dict : pyobj)
  (params : option (list (string * string)))
  (hdrs : option (gmap string string)) (extra_headers : bool) (e : exn)
  (l : log) :
  json_dumps object_dict = inl e ->
  _create_request resource object_dict params hdrs extra_headers l
  = (inl e, l) /\
  _put_request resource uuid object_dict params l = (inl e, l) /\
  _update_request resource uuid object_dict params l = (inl e, l).
Proof.
  intros Hdumps.
  unfold _create_request, _put_request, _update_request, serialize, bind, lift.
  now rewrite Hdumps.
Qed.

(** X9: an error of the transport leaves a helper as it is, with the log
    the transport left: no status check, no decoding, no retry, nothing
    logged by the helper. *)
Theorem transport_error_propagates (v : verb) (a : call_args) (l l1 : log)
  (e : exn) :
  transport_raises v a l e l1 -> call v a l = (inl e, l1).
Proof.
  destruct v; cbn [transport_raises call];
    unfold _create_request, _show_request, _list_request, _put_request,
      _update_request, _delete_request, serialize, bind, lift.
  1, 4, 5: now intros (s & -> & ->).
  all: now intros ->.
Qed.

(** X10: a status that [int] rejects.  Each helper raises the error of
    [int] (not the wrong-status error) after the warning, and the body is
    not decoded. *)
Theorem helper_uncoercible_status (v : verb) (a : call_args) (l l1 : log)
  (resp : Resp) (body : string) (e : exn) :
  responds v a l resp body l1 ->
  int_ (status resp) = inl e ->
  call v a l
  = (inl e,
     (l1 ++ [(WARNING, not_int_message (expected_of v) (status resp))])%list).
Proof.
  intros Hresp Hint.
  now rewrite (call_run _ _ _ _ _ _ Hresp),
    (expected_success_int_error _ _ _ _ Hint).
Qed.

(** X11: the five helpers other than delete, on an accepted status.  The
    helper returns the response of the transport with what [deserialize]
    makes of the body, and raises what [deserialize] raises; the log is
    the one [deserialize] left. *)
Theorem helper_returns_decoded (v : verb) (a : call_args) (l l1 l2 : log)
  (resp : Resp) (body : string) :
  v <> Delete ->
  responds v a l resp body l1 ->
  expected_success (expected_of v) (status resp) l1 = (inr tt, l2) ->
  call v a l =
    match deserialize resp body l2 with
    | (inl e, l3) => (inl e, l3)
    | (inr d, l3) => (inr (resp, inr d), l3)
    end.
Proof.
  intros Hv Hresp Hok. rewrite (call_run _ _ _ _ _ _ Hresp), Hok.
  now destruct v.
Qed.

(** X12: what a returned value tells.  When a helper returns, the response
    is the one the transport gave, its status is a number among the codes
    of the helper, and the second component is either the decoded body or,
    for delete on a status that is not the integer 202, the body text as
    received. *)
Theorem helper_success_sound (v : verb) (a : call_args) (l l1 l3 : log)
  (resp r : Resp) (body : string) (b : string + decoded) :
  responds v a l resp body l1 ->
  call v a l = (inr (r, b), l3) ->
  r = resp /\
  (exists n, int_ (status resp) = inr n /\ In n (spec_codes v)) /\
  match b with
  | inr d => exists l2, deserialize resp body l2 = (inr d, l3)
  | inl s => v = Delete /\ s = body /\ eq_int (status resp) 202 = false
  end.
Proof.
  intros Hresp. rewrite (call_run _ _ _ _ _ _ Hresp).
  destruct (int_ (status resp)) as [e | n] eqn:Hint.
  - now rewrite (expected_success_int_error _ _ _ _ Hint).
  - rewrite (expected_success_run _ _ _ _ Hint).
    destruct (code_expected (expected_of v) n) eqn:Hcode; [| discriminate].
    apply code_expected_spec_codes in Hcode.
    set (l2 := if isinstance_int (status resp) then l1 else _).
    assert (Hdecode :
      match deserialize resp body l2 with
      | (inl e, l3') => (inl e, l3')
      | (inr d, l3') => (inr (resp, inr d), l3')
      end = (inr (r, b), l3) ->
      r = resp /\ (exists n0, @inr exn Z n = inr n0 /\ In n0 (spec_codes v)) /\
      match b with
      | inr d => exists l2', deserialize resp body l2' = (inr d, l3)
      | inl s => v = Delete /\ s = body /\ eq_int (status resp) 202 = false
      end).
    { destruct (deserialize resp body l2) as [[e | d] l3'] eqn:Hd;
        [discriminate |].
      intros [= <- <- <-]. repeat split; eauto. }
    destruct v; cbv zeta; try exact Hdecode.
    destruct (eq_int (status resp) 202) eqn:H202; [exact Hdecode |].
    intros [= <- <- <-]. repeat split; eauto.
Qed.

(** X13: delete on a status that is a string.  The comparison with 202 is
    made on the status as received, before any coercion, and a string is
    never equal to an integer: when the validator accepted a status that is
    a string (["202"], say), the body is returned as text, not decoded. *)
Theorem delete_keeps_body_of_str_status (resource : string)
  (uuid : option string) (params : option (list (string * string)))
  (l l1 l2 : log) (resp : Resp) (body s : string) :
  delete (get_uri resource uuid params) l = (inr (resp, body), l1) ->
  expected_success (Codes [202; 204]) (status resp) l1 = (inr tt, l2) ->
  status resp = PStr s ->
  _delete_request resource uuid params l = (inr (resp, inl body), l2).
Proof.
  intros Hdelete Hok Hstr.
  unfold _delete_request, bind. rewrite Hdelete, Hok.
  now rewrite Hstr.
Qed.

(** X14: listing is showing without a uuid and without headers: with no
    uuid, or the empty one, and no headers, [_show_request] is
    [_list_request]. *)
Theorem show_without_uuid_is_list (resource : string) (uuid : option string)
  (params : option (list (string * string))) (l : log) :
  uuid = None \/ uuid = Some "" ->
  _show_request resource uuid None params l = _list_request resource params l.
Proof. now intros [-> | ->]. Qed.

End MoreHelpers.

Section MoreDecorated.
Context `{lib : PyLib} `{zf : ZoneFileModel} `{client : RestClient}.

(** X15: an error of the transport can be ignored like any other.  For a
    helper under the decorator, a transport error that a class of
    [ignore_errors] accepts is caught: no value is returned and the DEBUG
    entry follows what the transport logged. *)
Theorem ignored_transport_error (v : verb) (a : call_args) (l l1 : log)
  (e : exn) (cs : list exc_class) :
  transport_raises v a l e l1 ->
  except_matches cs e = true ->
  handle_errors (fun args (_ : unit) => call v args) a
    {| ignore_errors := Some cs; others := tt |} l
  = (inr None,
     (l1 ++ [(DEBUG, ("Ignoring exception of type "
                      ++ str_of_class (exn_type e)
                      ++ ", as requested")%string)])%list).
Proof.
  intros Hraise Hm. rewrite handle_errors_run.
  cbn [ignore_errors others]. change (default [] (Some cs)) with cs.
  assert (Hcall : call v a l = (inl e, l1)).
  { destruct v; cbn [transport_raises call] in Hraise |- *;
      unfold _create_request, _show_request, _list_request, _put_request,
        _update_request, _delete_request, serialize, bind, lift.
    1, 4, 5: now destruct Hraise as (s & -> & ->).
    all: now rewrite Hraise. }
  now rewrite Hcall, Hm.
Qed.

End MoreDecorated.

Section MoreHandleErrorsNone.
Context `{lib : PyLib} {A K R : Type}.

(** X16: where a [None] comes from.  When the caller of the wrapper gets
    [None], either [f] itself returned [None], and the log is the log of
    [f], or [f] raised an error that a class of [ignore_errors] accepts,
    and the log is the log of [f] followed by the DEBUG entry naming the
    class of that error. *)
Theorem handle_errors_none_origin (f : A -> K -> M R) (args : A)
  (kw : kwargs K) (none : R) (l l' : log) :
  visible none (handle_errors f args kw) l = (inr none, l') ->
  f args (others kw) l = (inr none, l') \/
  exists e l0 cs,
    f args (others kw) l = (inl e, l0) /\
    ignore_errors kw = Some cs /\ except_matches cs e = true /\
    l' = (l0 ++ [(DEBUG, ("Ignoring exception of type "
                          ++ str_of_class (exn_type e)
                          ++ ", as requested")%string)])%list.
Proof.
  unfold visible, bind, ret. rewrite handle_errors_run.
  destruct (f args (others kw) l) as [[e | r] l0].
  - destruct (ignore_errors kw) as [cs |] eqn:Hkw.
    + change (default [] (Some cs)) with cs.
      destruct (except_matches cs e) eqn:Hm; [| discriminate].
      intros [= <-]. right. now exists e, l0, cs.
    + change (default [] None) with (@nil exc_class).
      rewrite except_matches_nil. discriminate.
  - cbn [default]. intros [= -> ->]. now left.
Qed.

End MoreHandleErrorsNone.

(** ** The further properties on the reference environment *)

(** A uuid with a slash and a question mark in it. *)
Lemma get_uri_pastes_uuid_witness :
  let lib := Reference.pylib in
  let client := Reference.simulated "/v2"
                  (Reference.response (PInt 200) "application/json") "{}" in
  "a/b?c" <> "" /\
  get_uri "zones" (Some "a/b?c") None = "/v2/zones/a/b?c" /\
  get_uri "zones/a/b?c" None None = "/v2/zones/a/b?c".
Proof.
  intros lib client.
  assert (Hu : "a/b?c" <> "") by discriminate.
  split; [exact Hu |].
  pose proof (get_uri_pastes_uuid "zones" "a/b?c" None Hu) as Heq.
  split; [| reflexivity]. rewrite Heq. reflexivity.
Defined.

(** A JSON library that cannot serialize, over a transport that would
    answer 201. *)
Lemma unserializable_payload_sends_nothing_witness :
  let lib := Faults.failing_dumps (Exn TypeError "not JSON serializable") in
  let zf := Reference.zonefile in
  let client := Reference.simulated "/v2"
                  (Reference.response (PInt 201) "application/json") "{}" in
  json_dumps (PDict []) = inl (Exn TypeError "not JSON serializable") /\
  _create_request "zones" (PDict []) None None false []
  = (inl (Exn TypeError "not JSON serializable"), []).
Proof.
  intros lib zf client.
  assert (Hdumps : json_dumps (PDict [])
                   = inl (Exn TypeError "not JSON serializable"))
    by reflexivity.
  split; [exact Hdumps |].
  exact (proj1 (unserializable_payload_sends_nothing "zones" None (PDict [])
                  None None false _ [] Hdumps)).
Defined.

(** Update over a transport on which every request fails. *)
Lemma transport_error_propagates_witness :
  let lib := Reference.pylib in
  let zf := Reference.zonefile in
  let e := Exn (ExcNamed "ConnectionError") "connection refused" in
  let client := Faults.unreachable "/v2" e in
  let a := {| arg_resource := "zones"; arg_uuid := Some "abc";
              arg_object_dict := PDict [(KStr "ttl", PInt 300)];
              arg_params := None; arg_headers := None;
              arg_extra_headers := false |} in
  transport_raises Update a [] e [(DEBUG, "request failed")] /\
  call Update a [] = (inl e, [(DEBUG, "request failed")]).
Proof.
  intros lib zf e client a.
  assert (Hraise : transport_raises Update a [] e [(DEBUG, "request failed")]).
  { eexists. split; reflexivity. }
  split; [exact Hraise |].
  exact (transport_error_propagates Update a [] _ e Hraise).
Defined.

(** Show on an answer whose status is the string ["accepted"]. *)
Lemma helper_uncoercible_status_witness :
  let lib := Reference.pylib in
  let zf := Reference.zonefile in
  let resp := Reference.response (PStr "accepted") "application/json" in
  let client := Reference.simulated "/v2" resp "{}" in
  let a := {| arg_resource := "zones"; arg_uuid := Some "abc";
              arg_object_dict := PNone; arg_params := None;
              arg_headers := None; arg_extra_headers := false |} in
  let e := Exn ValueError "invalid literal for int() with base 10: 'accepted'" in
  responds Show a [] resp "{}" [] /\
  int_ (status resp) = inl e /\
  call Show a []
  = (inl e,
     [(WARNING,
       "expected_success(200, 'accepted') received not-int read_code 'accepted'")]).
Proof.
  intros lib zf resp client a e.
  assert (Hresp : responds Show a [] resp "{}" []) by reflexivity.
  assert (Hint : int_ (status resp) = inl e) by reflexivity.
  split; [exact Hresp |]. split; [exact Hint |].
  exact (helper_uncoercible_status Show a [] [] resp "{}" e Hresp Hint).
Defined.

(** List on an answer with status 200 and a JSON body. *)
Lemma helper_returns_decoded_witness :
  let lib := Reference.pylib in
  let zf := Reference.zonefile in
  let resp := Reference.response (PInt 200) "application/json" in
  let client := Reference.simulated "/v2" resp "[1, 2]" in
  let a := {| arg_resource := "zones"; arg_uuid := None;
              arg_object_dict := PNone; arg_params := None;
              arg_headers := None; arg_extra_headers := false |} in
  List_ <> Delete /\
  responds List_ a [] resp "[1, 2]" [] /\
  expected_success (expected_of List_) (status resp) [] = (inr tt, []) /\
  call List_ a [] = (inr (resp, inr (Json (PList [PInt 1; PInt 2]))), []).
Proof.
  intros lib zf resp client a.
  assert (Hv : List_ <> Delete) by discriminate.
  assert (Hresp : responds List_ a [] resp "[1, 2]" []) by reflexivity.
  assert (Hok : expected_success (expected_of List_) (status resp) []
                = (inr tt, [])) by reflexivity.
  split; [exact Hv |]. split; [exact Hresp |]. split; [exact Hok |].
  exact (helper_returns_decoded List_ a [] [] [] resp "[1, 2]" Hv Hresp Hok).
Defined.

(** Replace on an answer with status 202 and a JSON body. *)
Lemma helper_success_sound_witness :
  let lib := Reference.pylib in
  let zf := Reference.zonefile in
  let resp := Reference.response (PInt 202) "application/json" in
  let client := Reference.simulated "/v2" resp "[1, 2]" in
  let a := {| arg_resource := "zones"; arg_uuid := Some "abc";
              arg_object_dict := PDict [(KStr "ttl", PInt 300)];
              arg_params := None; arg_headers := None;
              arg_extra_headers := false |} in
  responds Replace a [] resp "[1, 2]" [] /\
  call Replace a [] = (inr (resp, inr (Json (PList [PInt 1; PInt 2]))), []) /\
  exists n, int_ (status resp) = inr n /\ In n (spec_codes Replace).
Proof.
  intros lib zf resp client a.
  assert (Hresp : responds Replace a [] resp "[1, 2]" []).
  { eexists. split; reflexivity. }
  assert (Hcall : call Replace a []
                  = (inr (resp, inr (Json (PList [PInt 1; PInt 2]))), []))
    by reflexivity.
  split; [exact Hresp |]. split; [exact Hcall |].
  exact (proj1 (proj2 (helper_success_sound Replace a [] [] [] resp resp
                         "[1, 2]" _ Hresp Hcall))).
Defined.

(** Delete on an answer whose status is the string ["202"]. *)
Lemma delete_keeps_body_of_str_status_witness :
  let lib := Reference.pylib in
  let zf := Reference.zonefile in
  let resp := Reference.response (PStr "202") "application/json" in
  let client := Reference.simulated "/v2" resp "{}" in
  let w := [(WARNING,
             "expected_success([202, 204], '202') received not-int read_code '202'")] in
  delete (get_uri "zones" (Some "abc") None) [] = (inr (resp, "{}"), []) /\
  expected_success (Codes [202; 204]) (status resp) [] = (inr tt, w) /\
  status resp = PStr "202" /\
  _delete_request "zones" (Some "abc") None [] = (inr (resp, inl "{}"), w).
Proof.
  intros lib zf resp client w.
  assert (Hdelete : delete (get_uri "zones" (Some "abc") None) []
                    = (inr (resp, "{}"), [])) by reflexivity.
  assert (Hok : expected_success (Codes [202; 204]) (status resp) []
                = (inr tt, w)) by reflexivity.
  assert (Hstr : status resp = PStr "202") by reflexivity.
  split; [exact Hdelete |]. split; [exact Hok |]. split; [exact Hstr |].
  exact (delete_keeps_body_of_str_status "zones" (Some "abc") None
           [] [] w resp "{}" "202" Hdelete Hok Hstr).
Defined.

(** Show with the empty uuid. *)
Lemma show_without_uuid_is_list_witness :
  let lib := Reference.pylib in
  let zf := Reference.zonefile in
  let resp := Reference.response (PInt 200) "application/json" in
  let client := Reference.simulated "/v2" resp "[]" in
  (Some "" = None \/ Some "" = Some "") /\
  _show_request "zones" (Some "") None None []
  = _list_request "zones" None [].
Proof.
  intros lib zf resp client.
  assert (Hu : Some "" = @None string \/ Some "" = Some "")
    by (right; reflexivity).
  split; [exact Hu |].
  exact (show_without_uuid_is_list "zones" (Some "") None [] Hu).
Defined.

(** Delete over a transport on which every request fails, with the class
    of the error in [ignore_errors]. *)
Lemma ignored_transport_error_witness :
  let lib := Reference.pylib in
  let zf := Reference.zonefile in
  let e := Exn (ExcNamed "ConnectionError") "connection refused" in
  let client := Faults.unreachable "/v2" e in
  let a := {| arg_resource := "zones"; arg_uuid := Some "abc";
              arg_object_dict := PNone; arg_params := None;
              arg_headers := None; arg_extra_headers := false |} in
  transport_raises Delete a [] e [(DEBUG, "request failed")] /\
  except_matches [ExcNamed "ConnectionError"] e = true /\
  handle_errors (fun args (_ : unit) => call Delete args) a
    {| ignore_errors := Some [ExcNamed "ConnectionError"]; others := tt |} []
  = (inr None,
     [(DEBUG, "request failed");
      (DEBUG, "Ignoring exception of type <class 'ConnectionError'>, as requested")]).
Proof.
  intros lib zf e client a.
  assert (Hraise : transport_raises Delete a [] e [(DEBUG, "request failed")])
    by reflexivity.
  assert (Hm : except_matches [ExcNamed "ConnectionError"] e = true)
    by reflexivity.
  split; [exact Hraise |]. split; [exact Hm |].
  exact (ignored_transport_error Delete a [] _ e _ Hraise Hm).
Defined.

(** A lookup that raises [KeyError], called with
    [ignore_errors=(KeyError,)]: the caller gets [None], and the second
    case is the one that holds. *)
Lemma handle_errors_none_origin_witness :
  let lib := Reference.pylib in
  let f := fun (_ _ : unit) =>
             raise (A := pyobj) (Exn KeyError "content-type") in
  let kw := {| ignore_errors := Some [KeyError]; others := tt |} in
  let l' := [(DEBUG,
              "Ignoring exception of type <class 'KeyError'>, as requested")] in
  visible PNone (handle_errors f tt kw) [] = (inr PNone, l') /\
  (f tt (others kw) [] = (inr PNone, l') \/
   exists e l0 cs,
     f tt (others kw) [] = (inl e, l0) /\
     ignore_errors kw = Some cs /\ except_matches cs e = true /\
     l' = (l0 ++ [(DEBUG, ("Ignoring exception of type "
                           ++ str_of_class (exn_type e)
                           ++ ", as requested")%string)])%list).
Proof.
  intros lib f kw l'.
  assert (Hw : visible PNone (handle_errors f tt kw) [] = (inr PNone, l'))
    by reflexivity.
  split; [exact Hw |].
  exact (handle_errors_none_origin f tt kw PNone [] l' Hw).
Defined.
